(** * serials.py: the per-host query, classification and report loop

    A shallow embedding of [run_curl_requests] and of the script block
    (src/serials.py), and of the parts of the Python runtime they call:
    [str.strip], [str.startswith], [str.endswith], [json.loads], [dict.get],
    [str()], [subprocess.run], [csv.writer.writerow] on a file opened with
    [encoding='utf-8'], [f.readlines], [csv.reader], [os.path.exists].

    Conventions of the model.
    - A Python [str] is a list of code points ([N]); literals of the source
      are written with [lit].
    - What the operating system and the network answer is an input of the
      model: the lines of the password file, the rows [csv.reader] yields for
      the list file, whether the results file opens, and the result of the
      n-th [subprocess.run] call.
    - Text printed on the console is not part of the model: no [print] of
      the source changes the control flow.
    - [json.loads] is modelled within the interpreter's recursion limit and
      integer digit limit; the message text of a [JSONDecodeError], the
      [repr] of a float and the Unicode table behind [str.isprintable] are
      taken from the runtime ([PyRuntime]). *)

From Stdlib Require Import List NArith ZArith String Ascii Bool Lia Arith.
From Stdlib Require Import DecimalString.
Import ListNotations.

#[local] Set Warnings "-register-all".

Local Open Scope N_scope.
Local Open Scope list_scope.

(** ** Python strings *)

Definition str := list N.

(** A literal of the source, one code point per character. *)
Definition lit (s : string) : str := map N_of_ascii (list_ascii_of_string s).

Definition str_eqb (a b : str) : bool :=
  if list_eq_dec N.eq_dec a b then true else false.

(** [str.isspace] on one code point (the whitespace property of CPython's
    Unicode database). *)
Definition isspace (c : N) : bool :=
  ((9 <=? c) && (c <=? 13)) || ((28 <=? c) && (c <=? 32))
  || (c =? 133) || (c =? 160) || (c =? 5760)
  || ((8192 <=? c) && (c <=? 8202))
  || (c =? 8232) || (c =? 8233) || (c =? 8239) || (c =? 8287) || (c =? 12288).

Fixpoint lstrip (s : str) : str :=
  match s with
  | c :: t => if isspace c then lstrip t else s
  | [] => []
  end.

Definition rstrip (s : str) : str := rev (lstrip (rev s)).

(** [s.strip()] *)
Definition strip (s : str) : str := rstrip (lstrip s).

(** [s.startswith((a, b))] and [s.endswith((a, b))] for one-character
    alternatives. *)
Definition startswith2 (s : str) (a b : N) : bool :=
  match s with
  | c :: _ => (c =? a) || (c =? b)
  | [] => false
  end.

Definition endswith2 (s : str) (a b : N) : bool := startswith2 (rev s) a b.

(** [str(n)] for an [int]. *)
Definition str_of_int (z : Z) : str := lit (NilZero.string_of_int (Z.to_int z)).

(** Surrogate code points: the ones [encoding='utf-8'] refuses to encode. *)
Definition is_surrogate (c : N) : bool := (55296 <=? c) && (c <=? 57343).

(** Text as the strict decoders of the runtime produce it. *)
Definition wf_text (s : str) : bool := forallb (fun c => negb (is_surrogate c)) s.


(** ** JSON values and [json.loads] *)

(** The Python value [json.loads] builds.  A float keeps the text of its
    literal; an object is the [dict] in insertion order. *)
Inductive json : Type :=
| JNull
| JBool (b : bool)
| JInt (z : Z)
| JFloat (lexeme : str)
| JStr (s : str)
| JList (items : list json)
| JDict (items : list (str * json)).

(** [d[k] = v] on a dict kept in insertion order. *)
Fixpoint dict_set (d : list (str * json)) (k : str) (v : json) : list (str * json) :=
  match d with
  | [] => [(k, v)]
  | (k', v') :: rest =>
      if str_eqb k' k then (k', v) :: rest else (k', v') :: dict_set rest k v
  end.

(** [dict(pairs)] *)
Definition dict_of_pairs (pairs : list (str * json)) : list (str * json) :=
  fold_left (fun d kv => dict_set d (fst kv) (snd kv)) pairs [].

(** [d.get(k)], [None] when the key is absent. *)
Fixpoint dict_get (d : list (str * json)) (k : str) : option json :=
  match d with
  | [] => None
  | (k', v) :: rest => if str_eqb k' k then Some v else dict_get rest k
  end.

Module Decoder.

(** [WHITESPACE]: blank, tab, line feed, carriage return. *)
Definition is_ws (c : N) : bool := (c =? 32) || (c =? 9) || (c =? 10) || (c =? 13).

Fixpoint skip_ws (s : str) : str :=
  match s with
  | c :: t => if is_ws c then skip_ws t else s
  | [] => []
  end.

Definition is_digit (c : N) : bool := (48 <=? c) && (c <=? 57).

Definition hex_value (c : N) : option N :=
  if is_digit c then Some (c - 48)
  else if (97 <=? c) && (c <=? 102) then Some (c - 87)
  else if (65 <=? c) && (c <=? 70) then Some (c - 55)
  else None.

(** The four hex digits of a [\uXXXX] escape. *)
Definition decode_uXXXX (h1 h2 h3 h4 : N) : option N :=
  match hex_value h1, hex_value h2, hex_value h3, hex_value h4 with
  | Some a, Some b, Some c, Some d => Some (((a * 16 + b) * 16 + c) * 16 + d)
  | _, _, _, _ => None
  end.

(** [BACKSLASH]: the one-character escapes. *)
Definition backslash (esc : N) : option N :=
  if esc =? 34 then Some 34          (* quote *)
  else if esc =? 92 then Some 92     (* backslash *)
  else if esc =? 47 then Some 47     (* slash *)
  else if esc =? 98 then Some 8      (* b *)
  else if esc =? 102 then Some 12    (* f *)
  else if esc =? 110 then Some 10    (* n *)
  else if esc =? 114 then Some 13    (* r *)
  else if esc =? 116 then Some 9     (* t *)
  else None.

Definition is_high_surrogate (c : N) : bool := (55296 <=? c) && (c <=? 56319).
Definition is_low_surrogate (c : N) : bool := (56320 <=? c) && (c <=? 57343).

Definition join_surrogates (hi lo : N) : N :=
  65536 + N.lor (N.shiftl (hi - 55296) 10) (lo - 56320).

Definition cons_char (c : N) (r : option (str * str)) : option (str * str) :=
  match r with
  | Some (chars, rest) => Some (c :: chars, rest)
  | None => None
  end.

(** [scanstring] in strict mode, from the character after the opening
    quote: the decoded string and the text after the closing quote. *)
Fixpoint scanstring (s : str) : option (str * str) :=
  match s with
  | [] => None
  | c :: t =>
      if c =? 34 then Some ([], t)
      else if c =? 92 then
        match t with
        | [] => None
        | esc :: t1 =>
            if esc =? 117 then
              match t1 with
              | h1 :: h2 :: h3 :: h4 :: t2 =>
                  match decode_uXXXX h1 h2 h3 h4 with
                  | None => None
                  | Some uni =>
                      match t2 with
                      | b :: u :: g1 :: g2 :: g3 :: g4 :: t3 =>
                          if is_high_surrogate uni && (b =? 92) && (u =? 117) then
                            match decode_uXXXX g1 g2 g3 g4 with
                            | None => None
                            | Some uni2 =>
                                if is_low_surrogate uni2
                                then cons_char (join_surrogates uni uni2) (scanstring t3)
                                else cons_char uni (scanstring t2)
                            end
                          else cons_char uni (scanstring t2)
                      | _ => cons_char uni (scanstring t2)
                      end
                  end
              | _ => None
              end
            else
              match backslash esc with
              | Some ch => cons_char ch (scanstring t1)
              | None => None
              end
        end
      else if c <? 32 then None
      else cons_char c (scanstring t)
  end.

(** The longest prefix of digits, and what follows it. *)
Fixpoint span_digits (s : str) : str * str :=
  match s with
  | c :: t =>
      if is_digit c then let '(ds, r) := span_digits t in (c :: ds, r) else ([], s)
  | [] => ([], [])
  end.

Definition int_of_digits (ds : str) : Z :=
  fold_left (fun acc c => (acc * 10 + Z.of_N (c - 48))%Z) ds 0%Z.

(** The integer part of [NUMBER_RE]: an optional minus, then 0 or a
    digit string without a leading 0. *)
Definition match_integer (s : str) : option (bool * str * str) :=
  let '(neg, s1) :=
    match s with
    | c :: t => if c =? 45 then (true, t) else (false, s)
    | [] => (false, s)
    end in
  match s1 with
  | c :: t =>
      if c =? 48 then Some (neg, [c], t)
      else if is_digit c then let '(ds, r) := span_digits t in Some (neg, c :: ds, r)
      else None
  | [] => None
  end.

(** The optional fraction: a dot and at least one digit. *)
Definition match_frac (s : str) : str * str :=
  match s with
  | c :: t =>
      if c =? 46 then
        match span_digits t with
        | ([], _) => ([], s)
        | (ds, r) => (c :: ds, r)
        end
      else ([], s)
  | [] => ([], s)
  end.

(** The optional exponent: e or E, an optional sign, at least one digit. *)
Definition match_exp (s : str) : str * str :=
  match s with
  | c :: t =>
      if (c =? 101) || (c =? 69) then
        let '(sign, t1) :=
          match t with
          | d :: t' => if (d =? 45) || (d =? 43) then ([d], t') else ([], t)
          | [] => ([], t)
          end in
        match span_digits t1 with
        | ([], _) => ([], s)
        | (ds, r) => (c :: sign ++ ds, r)
        end
      else ([], s)
  | [] => ([], s)
  end.

(** [match_number] followed by the conversion of the scanner: [int] when
    there is neither fraction nor exponent, [float] otherwise. *)
Definition match_number (s : str) : option (json * str) :=
  match match_integer s with
  | None => None
  | Some (neg, ds, r) =>
      let '(frac, r1) := match_frac r in
      let '(exp, r2) := match_exp r1 in
      match frac, exp with
      | [], [] => Some (JInt (if neg then - int_of_digits ds else int_of_digits ds)%Z, r2)
      | _, _ => Some (JFloat ((if neg then [45] else []) ++ ds ++ frac ++ exp), r2)
      end
  end.

(** [s[idx:idx+len(p)] == p], with the text after the match. *)
Fixpoint strip_prefix (p s : str) : option str :=
  match p, s with
  | [], _ => Some s
  | a :: p', c :: s' => if a =? c then strip_prefix p' s' else None
  | _ :: _, [] => None
  end.

Definition match_literal (s : str) : option (json * str) :=
  match strip_prefix (lit "null") s with
  | Some r => Some (JNull, r)
  | None =>
  match strip_prefix (lit "true") s with
  | Some r => Some (JBool true, r)
  | None =>
  match strip_prefix (lit "false") s with
  | Some r => Some (JBool false, r)
  | None => None
  end end end.

Definition match_constant (s : str) : option (json * str) :=
  match strip_prefix (lit "NaN") s with
  | Some r => Some (JFloat (lit "NaN"), r)
  | None =>
  match strip_prefix (lit "Infinity") s with
  | Some r => Some (JFloat (lit "Infinity"), r)
  | None =>
  match strip_prefix (lit "-Infinity") s with
  | Some r => Some (JFloat (lit "-Infinity"), r)
  | None => None
  end end end.

(** [scan_once], with [JSONObject] and [JSONArray] as its two loops.
    [None] is a raised [JSONDecodeError].  [object_loop] starts after the
    opening quote of a key, [array_loop] at a value. *)
Fixpoint scan_once (fuel : nat) (s : str) {struct fuel} : option (json * str) :=
  match fuel with
  | O => None
  | S fuel' =>
      match s with
      | [] => None
      | c :: t =>
          if c =? 34 then
            match scanstring t with
            | Some (chars, r) => Some (JStr chars, r)
            | None => None
            end
          else if c =? 123 then
            match skip_ws t with
            | c1 :: r =>
                if c1 =? 125 then Some (JDict [], r)
                else if c1 =? 34 then object_loop fuel' [] r
                else None
            | [] => None
            end
          else if c =? 91 then
            match skip_ws t with
            | c1 :: r =>
                if c1 =? 93 then Some (JList [], r)
                else array_loop fuel' [] (c1 :: r)
            | [] => None
            end
          else
            match match_literal s with
            | Some res => Some res
            | None =>
                match match_number s with
                | Some res => Some res
                | None => match_constant s
                end
            end
      end
  end
with object_loop (fuel : nat) (pairs : list (str * json)) (s : str)
       {struct fuel} : option (json * str) :=
  match fuel with
  | O => None
  | S fuel' =>
      match scanstring s with
      | None => None
      | Some (key, r) =>
          match skip_ws r with
          | c :: r1 =>
              if c =? 58 then
                match scan_once fuel' (skip_ws r1) with
                | None => None
                | Some (value, r2) =>
                    let pairs' := pairs ++ [(key, value)] in
                    match skip_ws r2 with
                    | c2 :: r3 =>
                        if c2 =? 125 then Some (JDict (dict_of_pairs pairs'), r3)
                        else if c2 =? 44 then
                          match skip_ws r3 with
                          | c3 :: r4 =>
                              if c3 =? 34 then object_loop fuel' pairs' r4 else None
                          | [] => None
                          end
                        else None
                    | [] => None
                    end
                end
              else None
          | [] => None
          end
      end
  end
with array_loop (fuel : nat) (values : list json) (s : str)
       {struct fuel} : option (json * str) :=
  match fuel with
  | O => None
  | S fuel' =>
      match scan_once fuel' s with
      | None => None
      | Some (value, r) =>
          let values' := values ++ [value] in
          match skip_ws r with
          | c :: r1 =>
              if c =? 93 then Some (JList values', r1)
              else if c =? 44 then array_loop fuel' values' (skip_ws r1)
              else None
          | [] => None
          end
      end
  end.

(** Recursion depth that no document of this length exceeds. *)
Definition fuel_for (s : str) : nat := 2 * List.length s + 2.

(** [JSONDecoder.decode]: one value between optional whitespace, and
    nothing after it. *)
Definition decode (s : str) : option json :=
  let s0 := skip_ws s in
  match scan_once (fuel_for s0) s0 with
  | Some (v, r) =>
      match skip_ws r with
      | [] => Some v
      | _ :: _ => None
      end
  | None => None
  end.

End Decoder.

(** [json.loads(s)] for a [str]: [None] is a raised [JSONDecodeError]. *)
Definition json_loads (s : str) : option json :=
  if match s with c :: _ => c =? 65279 | [] => false end
  then None                      (* Unexpected UTF-8 BOM *)
  else Decoder.decode s.

(** ** The runtime: [repr], [str()] and exceptions *)

(** What the model takes from the Python runtime as it is. *)
Class PyRuntime : Type := {
  (** [repr(float(lexeme))] for the text of a JSON number *)
  float_repr : str -> str;
  (** [chr(c).isprintable()] for a code point above 127 *)
  isprintable : N -> bool;
  (** [str(e)] for the [JSONDecodeError] that [json.loads(doc)] raises *)
  decode_error_text : str -> str
}.

Definition hex_digit (d : N) : N := if d <? 10 then 48 + d else 87 + d.

Fixpoint hex_fixed (width : nat) (c : N) : str :=
  match width with
  | O => []
  | S w => hex_fixed w (c / 16) ++ [hex_digit (c mod 16)]
  end.

(** [sep.join(parts)] *)
Fixpoint join (sep : str) (parts : list str) : str :=
  match parts with
  | [] => []
  | [p] => p
  | p :: rest => p ++ sep ++ join sep rest
  end.

Section Repr.
Context `{PyRuntime}.

(** The quote [repr] puts around a string. *)
Definition repr_quote (s : str) : N :=
  if existsb (N.eqb 39) s && negb (existsb (N.eqb 34) s) then 34 else 39.

Definition repr_char (quote c : N) : str :=
  if (c =? quote) || (c =? 92) then [92; c]
  else if c =? 9 then lit "\t"
  else if c =? 10 then lit "\n"
  else if c =? 13 then lit "\r"
  else if (c <? 32) || (c =? 127) then lit "\x" ++ hex_fixed 2 c
  else if c <? 127 then [c]
  else if isprintable c then [c]
  else if c <=? 255 then lit "\x" ++ hex_fixed 2 c
  else if c <=? 65535 then lit "\u" ++ hex_fixed 4 c
  else lit "\U" ++ hex_fixed 8 c.

Definition repr_str (s : str) : str :=
  let quote := repr_quote s in
  [quote] ++ flat_map (repr_char quote) s ++ [quote].

Definition repr_float (lexeme : str) : str :=
  if str_eqb lexeme (lit "NaN") then lit "nan"
  else if str_eqb lexeme (lit "Infinity") then lit "inf"
  else if str_eqb lexeme (lit "-Infinity") then lit "-inf"
  else float_repr lexeme.

(** [repr(v)] *)
Fixpoint py_repr (v : json) : str :=
  match v with
  | JNull => lit "None"
  | JBool true => lit "True"
  | JBool false => lit "False"
  | JInt z => str_of_int z
  | JFloat lexeme => repr_float lexeme
  | JStr s => repr_str s
  | JList items => lit "[" ++ join (lit ", ") (map py_repr items) ++ lit "]"
  | JDict items =>
      lit "{"
      ++ join (lit ", ")
           (map (fun kv => repr_str (fst kv) ++ lit ": " ++ py_repr (snd kv)) items)
      ++ lit "}"
  end.

(** [str(v)] *)
Definition py_str (v : json) : str :=
  match v with
  | JStr s => s
  | _ => py_repr v
  end.

(** [type(v).__name__] *)
Definition type_name (v : json) : str :=
  match v with
  | JNull => lit "NoneType"
  | JBool _ => lit "bool"
  | JInt _ => lit "int"
  | JFloat _ => lit "float"
  | JStr _ => lit "str"
  | JList _ => lit "list"
  | JDict _ => lit "dict"
  end.

End Repr.

Inductive exception_class : Type :=
| FileNotFoundError
| JSONDecodeError
| AttributeError
| OtherException.

(** An exception that is an instance of [Exception]: its class and [str(e)]. *)
Inductive exception : Type :=
| Exc (cls : exception_class) (text : str).

Definition exc_class (e : exception) : exception_class := let 'Exc c _ := e in c.
Definition exc_text (e : exception) : str := let 'Exc _ t := e in t.

(** ** The query of one server (lines 95 to 143) *)

(** What [subprocess.run(curl_command, capture_output=True, text=True,
    check=False)] does: it returns a completed process, or raises. *)
Inductive run_result : Type :=
| Completed (returncode : Z) (stdout stderr : str)
| Raised (e : exception).

(** The branch that sets [result_to_write], under the names of the
    specification. *)
Inductive outcome : Type :=
| Success (serial : str)                        (* line 127 *)
| TransportFailure (status : Z) (detail : str)  (* line 116 *)
| EmptyResponse                                 (* line 135 *)
| MalformedResponse (body : str)                (* line 131 *)
| ToolingFailure                                (* line 139 *)
| ScriptException (e : exception).              (* line 142 *)

Definition nonempty (s : str) : bool :=
  match s with
  | [] => false
  | _ :: _ => true
  end.

(** Line 121: [api_response.startswith(("{", "[")) and
    api_response.endswith(("}", "]"))]. *)
Definition looks_like_json (api_response : str) : bool :=
  startswith2 api_response 123 91 && endswith2 api_response 125 93.

Section Query.
Context `{PyRuntime}.

(** [json_data.get('sn', 'SN_NOT_FOUND')]: only a dict has [get]. *)
Definition get_sn (json_data : json) : exception + json :=
  match json_data with
  | JDict d =>
      match dict_get d (lit "sn") with
      | Some v => inr v
      | None => inr (JStr (lit "SN_NOT_FOUND"))
      end
  | other =>
      inl (Exc AttributeError
             (lit "'" ++ type_name other ++ lit "' object has no attribute 'get'"))
  end.

(** The body of the [try] block. *)
Definition try_query (process : run_result) : exception + outcome :=
  match process with
  | Raised e => inl e
  | Completed returncode stdout stderr =>
      let api_response := strip stdout in
      let curl_stderr := strip stderr in
      if negb (returncode =? 0)%Z then
        inr (TransportFailure returncode
               (if nonempty curl_stderr then curl_stderr
                else lit "Unknown curl error or connection issue."))
      else if nonempty api_response then
        if looks_like_json api_response then
          match json_loads api_response with
          | None => inl (Exc JSONDecodeError (decode_error_text api_response))
          | Some json_data =>
              match get_sn json_data with
              | inl e => inl e
              | inr serial_number => inr (Success (py_str serial_number))
              end
          end
        else inr (MalformedResponse api_response)
      else inr EmptyResponse
  end.

(** The [try] block with its two handlers. *)
Definition classify (process : run_result) : outcome :=
  match try_query process with
  | inr o => o
  | inl (Exc FileNotFoundError _) => ToolingFailure
  | inl e => ScriptException e
  end.

(** The value of [result_to_write] when the row is written. *)
Definition render (o : outcome) : str :=
  match o with
  | Success serial => serial
  | TransportFailure status detail =>
      lit "CURL ERROR (Exit Code " ++ str_of_int status ++ lit "): " ++ detail
  | EmptyResponse => lit "No API response received (might be empty or timeout)."
  | MalformedResponse body => lit "UNEXPECTED RESPONSE: " ++ body
  | ToolingFailure =>
      lit "ERROR: 'curl' command not found. Please ensure curl is installed and accessible in your system's PATH."
  | ScriptException e =>
      lit "SCRIPT EXCEPTION: An error occurred during curl execution: " ++ exc_text e
  end.

Definition is_success (o : outcome) : bool :=
  match o with
  | Success _ => true
  | _ => false
  end.

End Query.

(** ** The run: credentials, server list, report (lines 19 to 151) *)

(** What opening and reading an input file gives. *)
Inductive file_read (A : Type) : Type :=
| Read (content : A)
| NotFound
| ReadFailed.
Arguments Read {A} content.
Arguments NotFound {A}.
Arguments ReadFailed {A}.

(** The answers of the operating system during one run. *)
Record Env : Type := {
  (** [f.readlines()] on the password file *)
  password_file : file_read (list str);
  (** the rows of [csv.reader(f)] on the list file *)
  list_file : file_read (list (list str));
  (** whether [open(results_file, 'w', ...)] succeeds *)
  results_file_opens : bool;
  (** the result of the n-th call of [subprocess.run], on that command *)
  subprocess_run : nat -> list str -> run_result
}.

(** The results file after the run. *)
Inductive sink : Type :=
| Untouched
| Rewritten (rows : list (list str)).

(** What a run leaves behind: the commands handed to [subprocess.run], in
    order, and the results file. *)
Record Effects : Type := {
  queries : list (list str);
  results_file : sink
}.

(** Section 1: [None] is every early [return]. *)
Definition read_credentials (f : file_read (list str)) : option (str * str) :=
  match f with
  | Read lines =>
      match lines with
      | l0 :: l1 :: _ =>
          let username := strip l0 in
          let password := strip l1 in
          if negb (nonempty username) then None
          else if negb (nonempty password) then None
          else Some (username, password)
      | _ => None
      end
  | _ => None
  end.

(** The loop of lines 50 to 52. *)
Fixpoint collect_servers (rows : list (list str)) : list str :=
  match rows with
  | [] => []
  | row :: rest =>
      match row with
      | first :: _ =>
          if nonempty (strip first) then strip first :: collect_servers rest
          else collect_servers rest
      | [] => collect_servers rest
      end
  end.

(** Section 2: [None] is every early [return]. *)
Definition read_server_list (f : file_read (list (list str))) : option (list str) :=
  match f with
  | Read rows =>
      match collect_servers rows with
      | [] => None
      | server_list => Some server_list
      end
  | _ => None
  end.

Definition header : list str := [lit "Server Address"; lit "Serial Number"].

(** Lines 76 and 83 to 90. *)
Definition curl_command (username password server_address : str) : list str :=
  let url := lit "https://" ++ server_address ++ lit "/api/v1/systeminfo/?format=json" in
  [lit "curl"; lit "-k"; lit "-s"; lit "-S"; lit "-u";
   username ++ lit ":" ++ password; url].

(** [csv_writer.writerow(row)] on the file opened with [encoding='utf-8']:
    the row is appended, or [UnicodeEncodeError] is raised ([None]) and
    nothing is written, when a field holds a surrogate code point. *)
Definition writerow (row : list str) (rows : list (list str)) : option (list (list str)) :=
  if forallb wf_text row then Some (rows ++ [row]) else None.

(** The state of the loop: the commands run and the rows written so far. *)
Record LoopState : Type := {
  ran : list (list str);
  written : list (list str)
}.

Section Run.
Context `{PyRuntime}.

(** The [for] loop of lines 74 to 146.  An exception of [writerow] is not
    caught inside the loop: it leaves the loop for the handler of line
    150, with the rows written so far. *)
Fixpoint query_loop (username password : str)
    (run : nat -> list str -> run_result)
    (server_list : list str) (st : LoopState) : LoopState :=
  match server_list with
  | [] => st
  | server_address :: rest =>
      let command := curl_command username password server_address in
      let process := run (List.length (ran st)) command in
      let result_to_write := render (classify process) in
      let ran' := ran st ++ [command] in
      match writerow [server_address; result_to_write] (written st) with
      | Some rows => query_loop username password run rest
                       {| ran := ran'; written := rows |}
      | None => {| ran := ran'; written := written st |}
      end
  end.

Definition run_curl_requests (env : Env) : Effects :=
  match read_credentials (password_file env) with
  | None => {| queries := []; results_file := Untouched |}
  | Some (username, password) =>
      match read_server_list (list_file env) with
      | None => {| queries := []; results_file := Untouched |}
      | Some server_list =>
          if results_file_opens env then
            let st := query_loop username password (subprocess_run env) server_list
                        {| ran := []; written := [header] |} in
            {| queries := ran st; results_file := Rewritten (written st) |}
          else {| queries := []; results_file := Untouched |}
      end
  end.

End Run.

(** ** Predicates and sample inputs of the statements *)

(** [r] is what is left of [s] after at least [n] characters. *)
Definition cut (n : nat) (s r : str) : Prop :=
  exists pre, (n <= List.length pre)%nat /\ s = pre ++ r.

(** [r] is what is left of [s] after a text that ends with [c]. *)
Definition ends (c : N) (s r : str) : Prop := exists pre, s = pre ++ c :: r.

(** A value that is neither a list nor a dict. *)
Definition is_scalar (v : json) : bool :=
  match v with
  | JList _ | JDict _ => false
  | _ => true
  end.

(** What an accepted value tells about the text it was read from. *)
Definition value_shape (v : json) (s r : str) : Prop :=
  match v with
  | JList _ => (exists t, s = 91 :: t) /\ ends 93 s r
  | JDict _ => (exists t, s = 123 :: t) /\ ends 125 s r
  | _ => True
  end.

(** The rows the loop writes when no [writerow] fails: one per server, the
    n-th from the n-th call of [subprocess.run]. *)
Fixpoint expected_rows `{PyRuntime} (username password : str)
    (run : nat -> list str -> run_result) (n : nat) (server_list : list str)
    : list (list str) :=
  match server_list with
  | [] => []
  | server_address :: rest =>
      [server_address;
       render (classify (run n (curl_command username password server_address)))]
      :: expected_rows username password run (S n) rest
  end.

(** The rows up to the first one that [writerow] refuses. *)
Fixpoint take_encodable (rows : list (list str)) : list (list str) :=
  match rows with
  | [] => []
  | row :: rest => if forallb wf_text row then row :: take_encodable rest else []
  end.

(** A transport result that holds decoded text only. *)
Definition wf_result (process : run_result) : bool :=
  match process with
  | Completed _ stdout stderr => wf_text stdout && wf_text stderr
  | Raised e => wf_text (exc_text e)
  end.

(** A runtime to evaluate the model at concrete inputs: floats printed as
    their literal, no code point above 127 printable, and the decode-error
    text that CPython 3.11 gives for the rejected documents of the examples
    below.  What is stated with it holds for every runtime. *)
#[export] Instance sample_runtime : PyRuntime := {|
  float_repr := fun lexeme => lexeme;
  isprintable := fun _ => false;
  decode_error_text := fun _ =>
    lit "Expecting property name enclosed in double quotes: line 1 column 2 (char 1)"
|}.

(** A string literal of a JSON document: the text between two quotes. *)
Definition quoted (s : string) : str := [34] ++ lit s ++ [34].

Definition sn_body (serial : string) : str :=
  lit "{" ++ quoted "sn" ++ lit ": " ++ quoted serial ++ lit "}".

(** Two servers; the first answers with a serial number written as the
    escape of a lone surrogate, the second with a plain one. *)
Definition surrogate_env : Env := {|
  password_file := Read [lit "admin" ++ [10]; lit "secret" ++ [10]];
  list_file := Read [[lit "10.0.0.1"]; [lit "10.0.0.2"]];
  results_file_opens := true;
  subprocess_run := fun n _ =>
    match n with
    | O => Completed 0 (sn_body "\ud800") []
    | _ => Completed 0 (sn_body "SN2") []
    end
|}.

(** Three servers: a resolver failure, a JSON array, a serial number. *)
Definition mixed_run (n : nat) (command : list str) : run_result :=
  match n with
  | 0%nat => Completed 6 [] (lit "curl: (6) Could not resolve host: bad-host" ++ [10])
  | 1%nat => Completed 0 (lit "[1, 2]" ++ [10]) []
  | _ => Completed 0 (sn_body "SN9") []
  end.

Definition start : LoopState := {| ran := []; written := [header] |}.

(** The end-to-end scenario of the specification: 10.0.0.1 answers with a
    serial number, bad-host does not resolve. *)
Definition scenario_env : Env := {|
  password_file := Read [lit "admin" ++ [10]; lit "secret"];
  list_file := Read [[lit "10.0.0.1"]; [lit " "]; [lit "bad-host "; lit "ignored"]];
  results_file_opens := true;
  subprocess_run := fun n _ =>
    match n with
    | O => Completed 0 (lit "{" ++ quoted "sn" ++ lit ":" ++ quoted "SN9" ++ lit "}") []
    | _ => Completed 6 [] (lit "Could not resolve host" ++ [10])
    end
|}.

(** ** Reading the input files from their text *)

(** The translation of line ends that a file opened for reading in text mode
    applies (universal newlines): CR LF and a lone CR become LF. *)
Fixpoint translate_newlines (s : str) : str :=
  match s with
  | [] => []
  | c :: t =>
      if c =? 13 then
        match t with
        | d :: t' => if d =? 10 then 10 :: translate_newlines t'
                     else 10 :: translate_newlines t
        | [] => [10]
        end
      else c :: translate_newlines t
  end.

(** The lines of a text, each with its line feed; [cur] is the line being
    read. *)
Fixpoint split_lines (s cur : str) : list str :=
  match s with
  | [] => if nonempty cur then [cur] else []
  | c :: t =>
      if c =? 10 then (cur ++ [c]) :: split_lines t []
      else split_lines t (cur ++ [c])
  end.

(** [f.readlines()], and the lines that iterating over [f] yields. *)
Definition readlines (content : str) : list str :=
  split_lines (translate_newlines content) [].

Module Csv.

(** The states of [csv.reader] that the default dialect reaches (no escape
    character). *)
Inductive state : Type :=
| START_RECORD
| START_FIELD
| IN_FIELD
| IN_QUOTED_FIELD
| QUOTE_IN_QUOTED_FIELD
| EAT_CRNL.

Record reader : Type := {
  st : state;
  fields : list str;
  field : str
}.

(** [csv.field_size_limit()] *)
Definition field_limit : N := 131072.

Definition parse_reset : reader := {| st := START_RECORD; fields := []; field := [] |}.

(** [None] is a raised [csv.Error]. *)
Definition parse_add_char (r : reader) (next : state) (c : N) : option reader :=
  if field_limit <=? N.of_nat (List.length (field r)) then None
  else Some {| st := next; fields := fields r; field := field r ++ [c] |}.

Definition parse_save_field (r : reader) (next : state) : reader :=
  {| st := next; fields := fields r ++ [field r]; field := [] |}.

Definition set_state (r : reader) (next : state) : reader :=
  {| st := next; fields := fields r; field := field r |}.

Definition is_newline (c : N) : bool := (c =? 10) || (c =? 13).

(** [parse_process_char] for the dialect excel: delimiter comma, quote
    character double quote, double quotes on, not strict.  The character
    [None] is the end of a line. *)
Definition parse_process_char (r : reader) (c : option N) : option reader :=
  let start_field (r : reader) : option reader :=
    match c with
    | None => Some (parse_save_field r START_RECORD)
    | Some ch =>
        if is_newline ch then Some (parse_save_field r EAT_CRNL)
        else if ch =? 34 then Some (set_state r IN_QUOTED_FIELD)
        else if ch =? 44 then Some (parse_save_field r START_FIELD)
        else parse_add_char r IN_FIELD ch
    end in
  match st r with
  | START_RECORD =>
      match c with
      | None => Some r
      | Some ch => if is_newline ch then Some (set_state r EAT_CRNL) else start_field r
      end
  | START_FIELD => start_field r
  | IN_FIELD =>
      match c with
      | None => Some (parse_save_field r START_RECORD)
      | Some ch =>
          if is_newline ch then Some (parse_save_field r EAT_CRNL)
          else if ch =? 44 then Some (parse_save_field r START_FIELD)
          else parse_add_char r IN_FIELD ch
      end
  | IN_QUOTED_FIELD =>
      match c with
      | None => Some r
      | Some ch =>
          if ch =? 34 then Some (set_state r QUOTE_IN_QUOTED_FIELD)
          else parse_add_char r IN_QUOTED_FIELD ch
      end
  | QUOTE_IN_QUOTED_FIELD =>
      match c with
      | None => Some (parse_save_field r START_RECORD)
      | Some ch =>
          if ch =? 34 then parse_add_char r IN_QUOTED_FIELD ch
          else if ch =? 44 then Some (parse_save_field r START_FIELD)
          else if is_newline ch then Some (parse_save_field r EAT_CRNL)
          else parse_add_char r IN_FIELD ch
      end
  | EAT_CRNL =>
      match c with
      | None => Some (set_state r START_RECORD)
      | Some ch => if is_newline ch then Some r else None
      end
  end.

(** One line of the input: its characters, then the end of the line. *)
Fixpoint process_line (line : str) (r : reader) : option reader :=
  match line with
  | [] => parse_process_char r None
  | c :: t =>
      match parse_process_char r (Some c) with
      | Some r' => process_line t r'
      | None => None
      end
  end.

Definition state_eqb (a b : state) : bool :=
  match a, b with
  | START_RECORD, START_RECORD | START_FIELD, START_FIELD | IN_FIELD, IN_FIELD
  | IN_QUOTED_FIELD, IN_QUOTED_FIELD
  | QUOTE_IN_QUOTED_FIELD, QUOTE_IN_QUOTED_FIELD | EAT_CRNL, EAT_CRNL => true
  | _, _ => false
  end.

(** The records that iterating over the reader yields: a record ends with
    the line that brings the state back to [START_RECORD]; at the end of
    the input a record that was begun is yielded as it is. *)
Fixpoint records (lines : list str) (r : reader) : option (list (list str)) :=
  match lines with
  | [] =>
      if nonempty (field r) || state_eqb (st r) IN_QUOTED_FIELD
      then Some [fields (parse_save_field r START_RECORD)]
      else Some []
  | line :: rest =>
      match process_line line r with
      | None => None
      | Some r' =>
          if state_eqb (st r') START_RECORD then
            match records rest parse_reset with
            | Some rows => Some (fields r' :: rows)
            | None => None
            end
          else records rest r'
      end
  end.

(** [list(csv.reader(f))] for a file with that text. *)
Definition reader_rows (content : str) : option (list (list str)) :=
  records (readlines content) parse_reset.

End Csv.

(** ** The files of the working directory and the script (lines 155 to 174) *)

(** The text files of the working directory, by name. *)
Definition FileSystem : Type := str -> option str.

(** [os.path.exists(name)] *)
Definition path_exists (fs : FileSystem) (name : str) : bool :=
  match fs name with
  | Some _ => true
  | None => false
  end.

(** [open(name, 'w')] followed by the writes that make [content]. *)
Definition write_text (fs : FileSystem) (name content : str) : FileSystem :=
  fun n => if str_eqb n name then Some content else fs n.

(** What section 1 reads from the password file. *)
Definition open_password_file (fs : FileSystem) (name : str) : file_read (list str) :=
  match fs name with
  | None => NotFound
  | Some content => Read (readlines content)
  end.

(** What section 2 reads from the list file. *)
Definition open_list_file (fs : FileSystem) (name : str) : file_read (list (list str)) :=
  match fs name with
  | None => NotFound
  | Some content =>
      match Csv.reader_rows content with
      | Some rows => Read rows
      | None => ReadFailed
      end
  end.

(** The answers to a run that reads its two input files from [fs]. *)
Definition env_of_files (fs : FileSystem) (list_file password_file : str)
    (opens : bool) (run : nat -> list str -> run_result) : Env := {|
  password_file := open_password_file fs password_file;
  list_file := open_list_file fs list_file;
  results_file_opens := opens;
  subprocess_run := run
|}.

Definition dummy_ip_list : str :=
  lit "192.168.0.122" ++ [10] ++ lit "api.example.com" ++ [10]
  ++ lit "nonexistent-server.local" ++ [10].

Definition dummy_password : str := lit "your_secure_password_here".

(** The block under [if __name__ == "__main__"]: the files after it, and
    what the run leaves behind.  The working directory is taken to be
    writable. *)
Definition main `{PyRuntime} (fs : FileSystem) (opens : bool)
    (run : nat -> list str -> run_result) : FileSystem * Effects :=
  let fs1 :=
    if path_exists fs (lit "ip_list.csv") then fs
    else write_text fs (lit "ip_list.csv") dummy_ip_list in
  let fs2 :=
    if path_exists fs1 (lit "password.txt") then fs1
    else write_text fs1 (lit "password.txt") dummy_password in
  (fs2, run_curl_requests
          (env_of_files fs2 (lit "ip_list.csv") (lit "password.txt") opens run)).

(** ** Predicates of the further statements *)

(** The kind of an outcome. *)
Inductive kind : Type :=
| KSuccess | KTransportFailure | KEmptyResponse | KMalformedResponse
| KToolingFailure | KScriptException.

Definition kind_of (o : outcome) : kind :=
  match o with
  | Success _ => KSuccess
  | TransportFailure _ _ => KTransportFailure
  | EmptyResponse => KEmptyResponse
  | MalformedResponse _ => KMalformedResponse
  | ToolingFailure => KToolingFailure
  | ScriptException _ => KScriptException
  end.

(** The text of a line before its first comma. *)
Fixpoint before_comma (line : str) : str :=
  match line with
  | [] => []
  | c :: t => if c =? 44 then [] else c :: before_comma t
  end.

(** A line of a list file without line end, carriage return or quote, and
    within the field limit of the reader. *)
Definition plain_line (line : str) : bool :=
  forallb (fun c => negb ((c =? 10) || (c =? 13) || (c =? 34))) line
  && (N.of_nat (List.length line) <=? Csv.field_limit).

(** A line of the password file: no line end inside. *)
Definition one_line (line : str) : bool :=
  forallb (fun c => negb ((c =? 10) || (c =? 13))) line.

(** The text of a file made of these lines, each ended by a line feed. *)
Definition text_of_lines (lines : list str) : str :=
  flat_map (fun line => line ++ [10]) lines.

(** The message of line 139. *)
Definition curl_not_found : str :=
  lit "ERROR: 'curl' command not found. Please ensure curl is installed and accessible in your system's PATH.".

(** The three addresses of the dummy list file. *)
Definition dummy_servers : list str :=
  [lit "192.168.0.122"; lit "api.example.com"; lit "nonexistent-server.local"].

(** A working directory with no file. *)
Definition empty_directory : FileSystem := fun _ => None.

(** * Properties *)

(** ** Strings *)

Lemma str_eqb_eq (a b : str) : str_eqb a b = true <-> a = b.
Proof.
  unfold str_eqb. destruct (list_eq_dec N.eq_dec a b); split; congruence.
Qed.

Lemma str_eqb_refl (a : str) : str_eqb a a = true.
Proof. now apply str_eqb_eq. Qed.

Example strip_example :
  strip (lit "  ab c " ++ [10; 160]) = lit "ab c".
Proof. reflexivity. Qed.

Example str_of_int_example :
  str_of_int 6 = lit "6" /\ str_of_int (-11) = lit "-11" /\ str_of_int 0 = lit "0".
Proof. repeat split. Qed.

Example json_loads_values :
  json_loads (lit "[1 ,2, -0, 1.5e+3, NaN, true, null, {}, " ++ quoted "a\/\u00e9" ++ lit "] ")
  = Some (JList [JInt 1; JInt 2; JInt 0; JFloat (lit "1.5e+3"); JFloat (lit "NaN");
                 JBool true; JNull; JDict []; JStr [97; 47; 233]]).
Proof. reflexivity. Qed.

Example json_loads_surrogates :
  json_loads (lit "[" ++ quoted "\ud83d\ude00" ++ lit "," ++ quoted "\ud83d" ++ lit "]")
  = Some (JList [JStr [128512]; JStr [55357]]).
Proof. reflexivity. Qed.

Example json_loads_last_key_wins :
  json_loads (lit "{" ++ quoted "sn" ++ lit ":1, " ++ quoted "b" ++ lit ":3, "
              ++ quoted "sn" ++ lit " : 2}")
  = Some (JDict [(lit "sn", JInt 2); (lit "b", JInt 3)]).
Proof. reflexivity. Qed.

Example json_loads_rejects :
  json_loads (lit "[01]") = None /\ json_loads (lit "[1.]") = None
  /\ json_loads (lit "[1,]") = None /\ json_loads (lit "{} x") = None
  /\ json_loads (lit "[" ++ quoted "\u+123" ++ lit "]") = None
  /\ json_loads (lit "[" ++ quoted ("a" ++ String "009" "b") ++ lit "]") = None.
Proof. repeat split. Qed.

Example py_str_nested :
  py_str (JDict [(lit "a", JList [JInt 1; JStr (lit "x" ++ [34] ++ lit "y");
                                  JStr (lit "it's"); JNull; JBool true;
                                  JStr [127; 160; 10]])])
  = lit "{'a': [1, 'x" ++ [34] ++ lit "y', " ++ [34] ++ lit "it's" ++ [34]
    ++ lit ", None, True, '\x7f\xa0\n']}".
Proof. reflexivity. Qed.

Example end_to_end_scenario :
  run_curl_requests scenario_env =
  {| queries :=
       [ [lit "curl"; lit "-k"; lit "-s"; lit "-S"; lit "-u"; lit "admin:secret";
          lit "https://10.0.0.1/api/v1/systeminfo/?format=json"];
         [lit "curl"; lit "-k"; lit "-s"; lit "-S"; lit "-u"; lit "admin:secret";
          lit "https://bad-host/api/v1/systeminfo/?format=json"] ];
     results_file :=
       Rewritten
         [ [lit "Server Address"; lit "Serial Number"];
           [lit "10.0.0.1"; lit "SN9"];
           [lit "bad-host"; lit "CURL ERROR (Exit Code 6): Could not resolve host"] ] |}.
Proof. reflexivity. Qed.

(** ** The decoder consumes what it accepts *)

Module DecoderFacts.
Import Decoder.

Lemma cut_refl (s : str) : cut 0 s s.
Proof. exists []. split; [apply Nat.le_refl | reflexivity]. Qed.

Lemma cut_cons (n : nat) (c : N) (s r : str) : cut n s r -> cut (S n) (c :: s) r.
Proof.
  intros [pre [Hn ->]]. exists (c :: pre). split; [simpl; lia | reflexivity].
Qed.

Lemma cut_trans (n m : nat) (s a r : str) : cut n s a -> cut m a r -> cut (n + m) s r.
Proof.
  intros [p1 [H1 ->]] [p2 [H2 ->]]. exists (p1 ++ p2). split.
  - rewrite length_app. lia.
  - now rewrite app_assoc.
Qed.

Lemma cut_weaken (n m : nat) (s r : str) : (m <= n)%nat -> cut n s r -> cut m s r.
Proof. intros Hle [pre [Hn ->]]. exists pre. split; [lia | reflexivity]. Qed.

Lemma cut_length (n : nat) (s r : str) :
  cut n s r -> (n + List.length r <= List.length s)%nat.
Proof. intros [pre [Hn ->]]. rewrite length_app. lia. Qed.

Lemma ends_cut (c : N) (s r : str) : ends c s r -> cut 1 s r.
Proof.
  intros [pre ->]. exists (pre ++ [c]). split.
  - rewrite length_app. simpl. lia.
  - now rewrite <- app_assoc.
Qed.

Lemma cut_ends (n : nat) (c : N) (s a r : str) : cut n s a -> ends c a r -> ends c s r.
Proof.
  intros [p1 [_ ->]] [p2 ->]. exists (p1 ++ p2). now rewrite app_assoc.
Qed.

Lemma skip_ws_cut (s : str) : cut 0 s (skip_ws s).
Proof.
  induction s as [|c t IH]; simpl.
  - apply cut_refl.
  - destruct (is_ws c); [|apply cut_refl].
    apply (cut_weaken 1); [lia|]. now apply cut_cons.
Qed.

Lemma skip_ws_head (s r : str) (c : N) : skip_ws s = c :: r -> is_ws c = false.
Proof.
  induction s as [|a t IH]; simpl; [discriminate|].
  destruct (is_ws a) eqn:E; [exact IH|]. intros [= -> _]. exact E.
Qed.

Lemma skip_ws_idem (s : str) : skip_ws (skip_ws s) = skip_ws s.
Proof.
  destruct (skip_ws s) as [|c r] eqn:E; [reflexivity|].
  simpl. now rewrite (skip_ws_head _ _ _ E).
Qed.

Lemma cons_char_some (c : N) (x : option (str * str)) (chars r : str) :
  cons_char c x = Some (chars, r) ->
  exists chars', x = Some (chars', r) /\ chars = c :: chars'.
Proof.
  destruct x as [[k r']|]; simpl; [|discriminate].
  intros [= <- <-]. now exists k.
Qed.

Lemma scanstring_cut_len (n : nat) :
  forall s chars r, (List.length s <= n)%nat ->
    scanstring s = Some (chars, r) -> cut 1 s r.
Proof.
  induction n as [|n IH]; intros s chars r Hlen Hs.
  - destruct s; [discriminate | simpl in Hlen; lia].
  - destruct s as [|c t]; [discriminate|]. simpl in Hlen.
    assert (Hrec : forall t' ch,
              cons_char ch (scanstring t') = Some (chars, r) ->
              (List.length t' <= List.length t)%nat ->
              cut 0 (c :: t) t' -> cut 1 (c :: t) r).
    { intros t' ch Hx Hl Hc. apply cons_char_some in Hx as [k [Hx _]].
      apply IH in Hx; [|lia]. apply (cut_trans 0 1 _ t'); assumption. }
    simpl in Hs.
    destruct (c =? 34).
    { injection Hs as _ <-. apply (cut_cons 0), cut_refl. }
    destruct (c =? 92).
    2:{ destruct (c <? 32); [discriminate|].
        eapply Hrec; [exact Hs | lia |].
        apply (cut_weaken 1); [lia|]. apply cut_cons, cut_refl. }
    destruct t as [|esc t1]; [discriminate|].
    destruct (esc =? 117).
    2:{ destruct (backslash esc); [|discriminate].
        eapply Hrec; [exact Hs | simpl; lia |].
        apply (cut_weaken 2); [lia|]. do 2 apply cut_cons. apply cut_refl. }
    destruct t1 as [|h1 [|h2 [|h3 [|h4 t2]]]]; try discriminate.
    destruct (decode_uXXXX h1 h2 h3 h4) as [uni|]; [|discriminate].
    assert (Hone : cons_char uni (scanstring t2) = Some (chars, r) ->
                   cut 1 (c :: esc :: h1 :: h2 :: h3 :: h4 :: t2) r).
    { intros Hx. eapply Hrec; [exact Hx | simpl; lia |].
      apply (cut_weaken 6); [lia|]. do 6 apply cut_cons. apply cut_refl. }
    destruct t2 as [|b [|u [|g1 [|g2 [|g3 [|g4 t3]]]]]]; try (exact (Hone Hs)).
    destruct (is_high_surrogate uni && (b =? 92) && (u =? 117)); [|exact (Hone Hs)].
    destruct (decode_uXXXX g1 g2 g3 g4) as [uni2|]; [|discriminate].
    destruct (is_low_surrogate uni2); [|exact (Hone Hs)].
    eapply Hrec; [exact Hs | simpl; lia |].
    apply (cut_weaken 12); [lia|]. do 12 apply cut_cons. apply cut_refl.
Qed.

Lemma scanstring_cut (s chars r : str) : scanstring s = Some (chars, r) -> cut 1 s r.
Proof. apply (scanstring_cut_len (List.length s)), Nat.le_refl. Qed.

Lemma span_digits_app (s : str) : s = fst (span_digits s) ++ snd (span_digits s).
Proof.
  induction s as [|c t IH]; simpl; [reflexivity|].
  destruct (is_digit c); [|reflexivity].
  destruct (span_digits t) as [ds r]. simpl in *. now rewrite <- IH.
Qed.

Lemma span_digits_cut (s ds r : str) : span_digits s = (ds, r) -> cut 0 s r.
Proof.
  intros E. exists ds. split; [lia|].
  rewrite (span_digits_app s) at 1. now rewrite E.
Qed.

Lemma match_integer_cut (s ds r : str) (neg : bool) :
  match_integer s = Some (neg, ds, r) -> cut 1 s r.
Proof.
  unfold match_integer.
  assert (Hdig : forall s1, cut 0 s s1 ->
    match s1 with
    | [] => None
    | c :: t =>
        if c =? 48 then Some (neg, [c], t)
        else if is_digit c
             then let '(ds0, r0) := span_digits t in Some (neg, c :: ds0, r0)
             else None
    end = Some (neg, ds, r) -> cut 1 s r).
  { intros [|c t] Hc; [discriminate|].
    destruct (c =? 48).
    - intros [= <- <-]. apply (cut_trans 0 1 _ _ _ Hc), cut_cons, cut_refl.
    - destruct (is_digit c); [|discriminate].
      destruct (span_digits t) as [ds0 r0] eqn:E. intros [= <- <-].
      apply (cut_trans 0 1 _ _ _ Hc), cut_cons, (span_digits_cut _ _ _ E). }
  destruct s as [|c t].
  - discriminate.
  - destruct (c =? 45).
    + intros Hm. destruct t as [|c1 t1]; [discriminate|].
      destruct (c1 =? 48).
      * injection Hm as _ <- <-. apply (cut_weaken 2); [lia|].
        do 2 apply cut_cons. apply cut_refl.
      * destruct (is_digit c1); [|discriminate].
        destruct (span_digits t1) as [ds0 r0] eqn:E. injection Hm as _ <- <-.
        apply (cut_weaken 2); [lia|]. do 2 apply cut_cons.
        apply (span_digits_cut _ _ _ E).
    + intros Hm. destruct (c =? 48).
      * injection Hm as _ <- <-. apply cut_cons, cut_refl.
      * destruct (is_digit c); [|discriminate].
        destruct (span_digits t) as [ds0 r0] eqn:E. injection Hm as _ <- <-.
        apply cut_cons, (span_digits_cut _ _ _ E).
Qed.

Lemma match_frac_cut (s : str) : cut 0 s (snd (match_frac s)).
Proof.
  destruct s as [|c t]; simpl; [apply cut_refl|].
  destruct (c =? 46); [|apply cut_refl].
  destruct (span_digits t) as [ds r] eqn:E.
  destruct ds; simpl; [apply cut_refl|].
  apply (cut_weaken 1); [lia|]. apply cut_cons, (span_digits_cut _ _ _ E).
Qed.

Lemma match_exp_cut (s : str) : cut 0 s (snd (match_exp s)).
Proof.
  destruct s as [|c t]; simpl; [apply cut_refl|].
  destruct ((c =? 101) || (c =? 69)); [|apply cut_refl].
  assert (Hgen : forall sign t1, cut 0 t t1 ->
    cut 0 (c :: t)
      (snd (let (ds, r) := span_digits t1 in
            match ds with
            | [] => ([], c :: t)
            | _ :: _ => (c :: sign ++ ds, r)
            end))).
  { intros sign t1 Hc. destruct (span_digits t1) as [ds r] eqn:E.
    destruct ds; simpl; [apply cut_refl|].
    apply (cut_weaken 1); [lia|]. apply cut_cons.
    apply (cut_trans 0 0 _ _ _ Hc), (span_digits_cut _ _ _ E). }
  destruct t as [|d t'].
  - apply (Hgen [] []), cut_refl.
  - destruct ((d =? 45) || (d =? 43)).
    + apply (Hgen [d] t'). apply (cut_weaken 1); [lia|]. apply cut_cons, cut_refl.
    + apply (Hgen [] (d :: t')), cut_refl.
Qed.

Lemma match_number_cut (s r : str) (v : json) :
  match_number s = Some (v, r) -> cut 1 s r /\ is_scalar v = true.
Proof.
  unfold match_number.
  destruct (match_integer s) as [[[neg ds] r0]|] eqn:Ei; [|discriminate].
  pose proof (match_frac_cut r0) as Hf.
  destruct (match_frac r0) as [frac r1]. simpl in Hf.
  pose proof (match_exp_cut r1) as He.
  destruct (match_exp r1) as [exp r2]. simpl in He.
  assert (Hc : cut 1 s r2).
  { apply (cut_trans 1 0 _ _ _ (match_integer_cut _ _ _ _ Ei)).
    apply (cut_trans 0 0 _ _ _ Hf He). }
  destruct frac, exp; intros [= <- <-]; split; auto.
Qed.

Lemma strip_prefix_app (p s r : str) : strip_prefix p s = Some r -> s = p ++ r.
Proof.
  revert s. induction p as [|a p IH]; intros s; simpl.
  - now intros [= ->].
  - destruct s as [|c s']; [discriminate|].
    destruct (N.eqb_spec a c) as [->|]; [|discriminate].
    intros Hp. now rewrite (IH _ Hp).
Qed.

Lemma strip_prefix_cut (p s r : str) :
  strip_prefix p s = Some r -> cut (List.length p) s r.
Proof. intros Hp. exists p. split; [lia | now apply strip_prefix_app]. Qed.

Lemma match_literal_cut (s r : str) (v : json) :
  match_literal s = Some (v, r) -> cut 1 s r /\ is_scalar v = true.
Proof.
  unfold match_literal.
  destruct (strip_prefix (lit "null") s) eqn:E1.
  { intros [= <- <-]. split; [|reflexivity].
    apply strip_prefix_cut in E1. apply (cut_weaken _ 1) in E1; [exact E1 | simpl; lia]. }
  destruct (strip_prefix (lit "true") s) eqn:E2.
  { intros [= <- <-]. split; [|reflexivity].
    apply strip_prefix_cut in E2. apply (cut_weaken _ 1) in E2; [exact E2 | simpl; lia]. }
  destruct (strip_prefix (lit "false") s) eqn:E3; [|discriminate].
  intros [= <- <-]. split; [|reflexivity].
  apply strip_prefix_cut in E3. apply (cut_weaken _ 1) in E3; [exact E3 | simpl; lia].
Qed.

Lemma match_constant_cut (s r : str) (v : json) :
  match_constant s = Some (v, r) -> cut 1 s r /\ is_scalar v = true.
Proof.
  unfold match_constant.
  destruct (strip_prefix (lit "NaN") s) eqn:E1.
  { intros [= <- <-]. split; [|reflexivity].
    apply strip_prefix_cut in E1. apply (cut_weaken _ 1) in E1; [exact E1 | simpl; lia]. }
  destruct (strip_prefix (lit "Infinity") s) eqn:E2.
  { intros [= <- <-]. split; [|reflexivity].
    apply strip_prefix_cut in E2. apply (cut_weaken _ 1) in E2; [exact E2 | simpl; lia]. }
  destruct (strip_prefix (lit "-Infinity") s) eqn:E3; [|discriminate].
  intros [= <- <-]. split; [|reflexivity].
  apply strip_prefix_cut in E3. apply (cut_weaken _ 1) in E3; [exact E3 | simpl; lia].
Qed.

Lemma scalar_shape (v : json) (s r : str) : is_scalar v = true -> value_shape v s r.
Proof. destruct v; simpl; intros; try discriminate; exact I. Qed.

Lemma skip_ws_ends (s r : str) (c : N) : skip_ws s = c :: r -> ends c s r.
Proof.
  intros E. destruct (skip_ws_cut s) as [pre [_ Hs]]. exists pre. now rewrite <- E.
Qed.

Lemma scan_once_accepts (fuel : nat) :
  (forall s v r, scan_once fuel s = Some (v, r) -> cut 1 s r /\ value_shape v s r)
  /\ (forall pairs s v r, object_loop fuel pairs s = Some (v, r) ->
        (exists d, v = JDict d) /\ ends 125 s r)
  /\ (forall values s v r, array_loop fuel values s = Some (v, r) ->
        (exists l, v = JList l) /\ ends 93 s r).
Proof.
  induction fuel as [|fuel [IHs [IHo IHa]]].
  { repeat split; discriminate. }
  split; [|split].
  - intros [|c t] v r; simpl; [discriminate|].
    destruct (c =? 34).
    { destruct (scanstring t) as [[chars r0]|] eqn:E; [|discriminate].
      intros [= <- <-]. split; [|exact I].
      apply (cut_weaken 2); [lia|]. apply cut_cons, (scanstring_cut _ _ _ E). }
    destruct (N.eqb_spec c 123) as [->|_].
    { destruct (skip_ws t) as [|c1 r1] eqn:E; [discriminate|].
      apply skip_ws_ends in E.
      assert (Hc : cut 0 (123 :: t) (c1 :: r1)).
      { apply (cut_weaken 1); [lia|]. apply cut_cons.
        destruct E as [pre ->]. exists pre. split; [lia | reflexivity]. }
      destruct (N.eqb_spec c1 125) as [->|_].
      { intros [= <- <-]. simpl.
        assert (He : ends 125 (123 :: t) r1).
        { destruct E as [pre ->]. now exists (123 :: pre). }
        split; [exact (ends_cut _ _ _ He)|]. split; [now exists t | exact He]. }
      destruct (c1 =? 34); [|discriminate].
      intros Ho. apply IHo in Ho as [[d ->] He]. simpl.
      assert (He' : ends 125 (123 :: t) r).
      { apply (cut_ends 0 _ _ (c1 :: r1)); [exact Hc|].
        destruct He as [pre ->]. now exists (c1 :: pre). }
      split; [exact (ends_cut _ _ _ He')|]. split; [now exists t | exact He']. }
    destruct (N.eqb_spec c 91) as [->|_].
    { destruct (skip_ws t) as [|c1 r1] eqn:E; [discriminate|].
      apply skip_ws_ends in E.
      assert (Hc : cut 0 (91 :: t) (c1 :: r1)).
      { apply (cut_weaken 1); [lia|]. apply cut_cons.
        destruct E as [pre ->]. exists pre. split; [lia | reflexivity]. }
      destruct (N.eqb_spec c1 93) as [->|_].
      { intros [= <- <-]. simpl.
        assert (He : ends 93 (91 :: t) r1).
        { destruct E as [pre ->]. now exists (91 :: pre). }
        split; [exact (ends_cut _ _ _ He)|]. split; [now exists t | exact He]. }
      intros Ha. apply IHa in Ha as [[l ->] He]. simpl.
      assert (He' : ends 93 (91 :: t) r) by exact (cut_ends 0 _ _ _ _ Hc He).
      split; [exact (ends_cut _ _ _ He')|]. split; [now exists t | exact He']. }
    destruct (match_literal (c :: t)) as [[v0 r0]|] eqn:El.
    { intros [= <- <-]. apply match_literal_cut in El as [Hc Hv].
      split; [exact Hc | now apply scalar_shape]. }
    destruct (match_number (c :: t)) as [[v0 r0]|] eqn:En.
    { intros [= <- <-]. apply match_number_cut in En as [Hc Hv].
      split; [exact Hc | now apply scalar_shape]. }
    intros Hk. apply match_constant_cut in Hk as [Hc Hv].
    split; [exact Hc | now apply scalar_shape].
  - intros pairs s v r. simpl.
    destruct (scanstring s) as [[key r0]|] eqn:Ek; [|discriminate].
    apply scanstring_cut in Ek.
    destruct (skip_ws r0) as [|c r1] eqn:E1; [discriminate|].
    destruct (c =? 58); [|discriminate].
    destruct (scan_once fuel (skip_ws r1)) as [[value r2]|] eqn:Ev; [|discriminate].
    apply IHs in Ev as [Hv _].
    assert (Hc2 : cut 0 s r2).
    { apply (cut_weaken (1 + (0 + (1 + (0 + 1))))); [lia|].
      apply (cut_trans _ _ _ _ _ Ek).
      apply (cut_trans _ _ _ _ _ (skip_ws_cut r0)). rewrite E1.
      apply (cut_trans 1 _ _ r1); [apply cut_cons, cut_refl|].
      apply (cut_trans _ _ _ _ _ (skip_ws_cut r1) Hv). }
    destruct (skip_ws r2) as [|c2 r3] eqn:E2; [discriminate|].
    apply skip_ws_ends in E2.
    destruct (N.eqb_spec c2 125) as [->|_].
    { intros [= <- <-]. split; [eexists; reflexivity|].
      exact (cut_ends 0 _ _ _ _ Hc2 E2). }
    destruct (c2 =? 44); [|discriminate].
    destruct (skip_ws r3) as [|c3 r4] eqn:E3; [discriminate|].
    apply skip_ws_ends in E3.
    destruct (c3 =? 34); [|discriminate].
    intros Ho. apply IHo in Ho as [Hd He]. split; [exact Hd|].
    apply (cut_ends 0 _ _ r4); [|exact He].
    apply (cut_weaken (0 + (1 + 1))); [lia|].
    apply (cut_trans _ _ _ _ _ Hc2).
    apply (cut_trans _ _ _ _ _ (ends_cut _ _ _ E2)), (ends_cut _ _ _ E3).
  - intros values s v r. simpl.
    destruct (scan_once fuel s) as [[value r0]|] eqn:Ev; [|discriminate].
    apply IHs in Ev as [Hv _].
    destruct (skip_ws r0) as [|c r1] eqn:E1; [discriminate|].
    apply skip_ws_ends in E1.
    destruct (N.eqb_spec c 93) as [->|_].
    { intros [= <- <-]. split; [eexists; reflexivity|].
      exact (cut_ends 1 _ _ _ _ Hv E1). }
    destruct (c =? 44); [|discriminate].
    intros Ha. apply IHa in Ha as [Hl He]. split; [exact Hl|].
    apply (cut_ends 0 _ _ (skip_ws r1)); [|exact He].
    apply (cut_weaken (1 + (1 + 0))); [lia|].
    apply (cut_trans _ _ _ _ _ Hv).
    apply (cut_trans _ _ _ _ _ (ends_cut _ _ _ E1)), skip_ws_cut.
Qed.

End DecoderFacts.

Module FuelFacts.
Import Decoder DecoderFacts.

(** More fuel than the text needs changes nothing: no result of the
    decoder is a lack of fuel. *)
Lemma scan_once_fuel (fuel : nat) :
  (forall s fuel', (2 * List.length s < fuel)%nat -> (fuel <= fuel')%nat ->
     scan_once fuel' s = scan_once fuel s)
  /\ (forall pairs s fuel', (2 * List.length s + 1 < fuel)%nat -> (fuel <= fuel')%nat ->
        object_loop fuel' pairs s = object_loop fuel pairs s)
  /\ (forall values s fuel', (2 * List.length s + 1 < fuel)%nat -> (fuel <= fuel')%nat ->
        array_loop fuel' values s = array_loop fuel values s).
Proof.
  induction fuel as [|fuel [IHs [IHo IHa]]].
  { repeat split; intros; lia. }
  split; [|split].
  - intros s [|fuel'] Hlen Hle; [lia|].
    destruct s as [|c t]; [reflexivity|]. simpl in Hlen. simpl.
    destruct (c =? 34); [reflexivity|].
    destruct (c =? 123).
    { destruct (skip_ws t) as [|c1 r] eqn:E; [reflexivity|].
      destruct (c1 =? 125); [reflexivity|].
      destruct (c1 =? 34); [|reflexivity].
      apply IHo; [|lia].
      pose proof (cut_length _ _ _ (skip_ws_cut t)) as Hc. rewrite E in Hc.
      simpl in Hc. lia. }
    destruct (c =? 91); [|reflexivity].
    destruct (skip_ws t) as [|c1 r] eqn:E; [reflexivity|].
    destruct (c1 =? 93); [reflexivity|].
    apply IHa; [|lia].
    pose proof (cut_length _ _ _ (skip_ws_cut t)) as Hc. rewrite E in Hc.
    simpl in Hc. simpl. lia.
  - intros pairs s [|fuel'] Hlen Hle; [lia|]. simpl.
    destruct (scanstring s) as [[key r0]|] eqn:Ek; [|reflexivity].
    apply scanstring_cut, cut_length in Ek.
    destruct (skip_ws r0) as [|c r1] eqn:E1; [reflexivity|].
    pose proof (cut_length _ _ _ (skip_ws_cut r0)) as H1. rewrite E1 in H1.
    simpl in H1.
    destruct (c =? 58); [|reflexivity].
    pose proof (cut_length _ _ _ (skip_ws_cut r1)) as H2.
    rewrite (IHs (skip_ws r1) fuel') by lia.
    destruct (scan_once fuel (skip_ws r1)) as [[value r2]|] eqn:Ev; [|reflexivity].
    apply (proj1 (scan_once_accepts _)) in Ev as [Hv _]. apply cut_length in Hv.
    destruct (skip_ws r2) as [|c2 r3] eqn:E2; [reflexivity|].
    pose proof (cut_length _ _ _ (skip_ws_cut r2)) as H3. rewrite E2 in H3.
    simpl in H3.
    destruct (c2 =? 125); [reflexivity|].
    destruct (c2 =? 44); [|reflexivity].
    destruct (skip_ws r3) as [|c3 r4] eqn:E3; [reflexivity|].
    pose proof (cut_length _ _ _ (skip_ws_cut r3)) as H4. rewrite E3 in H4.
    simpl in H4.
    destruct (c3 =? 34); [|reflexivity].
    apply IHo; lia.
  - intros values s [|fuel'] Hlen Hle; [lia|]. simpl.
    rewrite (IHs s fuel') by lia.
    destruct (scan_once fuel s) as [[value r]|] eqn:Ev; [|reflexivity].
    apply (proj1 (scan_once_accepts _)) in Ev as [Hv _]. apply cut_length in Hv.
    destruct (skip_ws r) as [|c r1] eqn:E1; [reflexivity|].
    pose proof (cut_length _ _ _ (skip_ws_cut r)) as H1. rewrite E1 in H1.
    simpl in H1.
    destruct (c =? 93); [reflexivity|].
    destruct (c =? 44); [|reflexivity].
    pose proof (cut_length _ _ _ (skip_ws_cut r1)) as H2.
    apply IHa; lia.
Qed.

(** The fuel that [decode] gives to [scan_once] is enough. *)
Lemma fuel_for_enough (s : str) (fuel : nat) :
  (fuel_for s <= fuel)%nat -> scan_once fuel s = scan_once (fuel_for s) s.
Proof.
  intros Hle. apply (proj1 (scan_once_fuel (fuel_for s))); [|exact Hle].
  unfold fuel_for. lia.
Qed.

End FuelFacts.

(** ** Trimmed text and the test of line 121 *)

Lemma is_ws_isspace (c : N) : Decoder.is_ws c = true -> isspace c = true.
Proof.
  unfold Decoder.is_ws. rewrite !orb_true_iff, !N.eqb_eq.
  intros [[[-> | ->] | ->] | ->]; reflexivity.
Qed.

Lemma lstrip_head (s t : str) (c : N) : lstrip s = c :: t -> isspace c = false.
Proof.
  induction s as [|a s IH]; simpl; [discriminate|].
  destruct (isspace a) eqn:E; [exact IH|]. intros [= -> _]. exact E.
Qed.

Lemma lstrip_suffix (s : str) : exists sp, s = sp ++ lstrip s.
Proof.
  induction s as [|a s [sp IH]]; simpl.
  - now exists [].
  - destruct (isspace a); [|now exists []].
    exists (a :: sp). simpl. now rewrite <- IH.
Qed.

Lemma rstrip_prefix (s : str) : exists sp, s = rstrip s ++ sp.
Proof.
  unfold rstrip. destruct (lstrip_suffix (rev s)) as [sp E].
  exists (rev sp). rewrite <- rev_app_distr, <- E. now rewrite rev_involutive.
Qed.

Lemma strip_first (s t : str) (c : N) : strip s = c :: t -> isspace c = false.
Proof.
  unfold strip. intros E. destruct (rstrip_prefix (lstrip s)) as [sp Hs].
  rewrite E in Hs. simpl in Hs. exact (lstrip_head _ _ _ Hs).
Qed.

Lemma strip_last (s pre : str) (c : N) : strip s = pre ++ [c] -> isspace c = false.
Proof.
  unfold strip, rstrip. intros E.
  apply (f_equal (@rev N)) in E. rewrite rev_involutive, rev_app_distr in E.
  simpl in E. exact (lstrip_head _ _ _ E).
Qed.

Lemma skip_ws_nil_all (r : str) :
  Decoder.skip_ws r = [] -> forall c, In c r -> Decoder.is_ws c = true.
Proof.
  induction r as [|a r IH]; simpl; [contradiction|].
  destruct (Decoder.is_ws a) eqn:E; [|discriminate].
  intros Hr c [<- | Hin]; [exact E | exact (IH Hr c Hin)].
Qed.

Lemma json_loads_decode (s : str) (v : json) :
  json_loads s = Some v -> Decoder.decode s = Some v.
Proof.
  unfold json_loads. destruct s as [|c t]; [auto|].
  destruct (c =? 65279); [discriminate | auto].
Qed.

(** A list or a dict that [json.loads] reads from a trimmed text: the text
    passes the test of line 121. *)
Lemma loaded_container_looks_like_json (stdout : str) (v : json) :
  json_loads (strip stdout) = Some v ->
  is_scalar v = false ->
  looks_like_json (strip stdout) = true.
Proof.
  intros Hj Hv. apply json_loads_decode in Hj. unfold Decoder.decode in Hj.
  set (body := strip stdout) in *.
  destruct (Decoder.scan_once _ (Decoder.skip_ws body)) as [[v0 r]|] eqn:Es;
    [|discriminate].
  destruct (Decoder.skip_ws r) eqn:Er; [|discriminate]. injection Hj as ->.
  apply (proj1 (DecoderFacts.scan_once_accepts _)) in Es as [_ Hshape].
  assert (Hskip : Decoder.skip_ws body = body).
  { destruct body as [|c t] eqn:Eb; [reflexivity|].
    simpl. destruct (Decoder.is_ws c) eqn:Ec; [|reflexivity].
    apply is_ws_isspace in Ec. now rewrite (strip_first _ _ _ Eb) in Ec. }
  rewrite Hskip in Hshape.
  assert (Hend : forall c, ends c body r -> exists pre, body = pre ++ [c]).
  { intros c [pre Hb]. destruct r as [|x0 r0]; [now exists pre|]. exfalso.
    destruct (@exists_last _ (x0 :: r0)) as [r' [x Hr]]; [discriminate|].
    rewrite Hr in *.
    assert (Hx : Decoder.is_ws x = true).
    { apply (skip_ws_nil_all _ Er). apply in_or_app. right. now left. }
    apply is_ws_isspace in Hx.
    rewrite (strip_last stdout (pre ++ c :: r') x) in Hx; [discriminate|].
    fold body. rewrite Hb. now rewrite <- app_assoc. }
  unfold looks_like_json, endswith2.
  destruct v; try discriminate; simpl in Hshape;
    destruct Hshape as [[t Ht] He]; apply Hend in He as [pre Hp];
    rewrite Hp, rev_app_distr; simpl; rewrite Hp in Ht;
    destruct pre as [|a pre]; injection Ht as Ha; try discriminate;
    subst; reflexivity.
Qed.

(** ** Classification of one transport result *)

Lemma nonempty_false (s : str) : nonempty s = false <-> s = [].
Proof. destruct s; simpl; split; congruence. Qed.

Lemma nonempty_true (s : str) : nonempty s = true <-> s <> [].
Proof. destruct s; simpl; split; congruence. Qed.

Lemma looks_like_json_nonempty (s : str) : looks_like_json s = true -> nonempty s = true.
Proof. destruct s; [discriminate | reflexivity]. Qed.

(** The classifier on a completed process with exit status 0 and a body
    that passes the test of line 121: the result of [json.loads] decides. *)
Lemma classify_bracketed `{PyRuntime} (stdout stderr : str) :
  looks_like_json (strip stdout) = true ->
  classify (Completed 0 stdout stderr) =
    match json_loads (strip stdout) with
    | None => ScriptException (Exc JSONDecodeError (decode_error_text (strip stdout)))
    | Some json_data =>
        match get_sn json_data with
        | inl e => ScriptException e
        | inr serial_number => Success (py_str serial_number)
        end
    end.
Proof.
  intros Hb. unfold classify, try_query. simpl.
  rewrite (looks_like_json_nonempty _ Hb), Hb.
  destruct (json_loads (strip stdout)) as [json_data|]; [|reflexivity].
  destruct json_data; simpl; try reflexivity.
  destruct (dict_get items (lit "sn")); reflexivity.
Qed.

Lemma classify_nonzero_exit `{PyRuntime} (returncode : Z) (stdout stderr : str) :
  returncode <> 0%Z ->
  classify (Completed returncode stdout stderr) =
    TransportFailure returncode
      (if nonempty (strip stderr) then strip stderr
       else lit "Unknown curl error or connection issue.").
Proof.
  intros Hrc. unfold classify, try_query.
  destruct (Z.eqb_spec returncode 0) as [E|_]; [contradiction | reflexivity].
Qed.

(** ** Text that the results file accepts *)

Lemma wf_text_app (a b : str) : wf_text (a ++ b) = wf_text a && wf_text b.
Proof. apply forallb_app. Qed.

Lemma wf_text_lit (s : string) : wf_text (lit s) = true.
Proof.
  unfold wf_text, lit. apply forallb_forall. intros c Hin.
  apply in_map_iff in Hin as [a [<- _]].
  pose proof (N_ascii_bounded a) as Hb. unfold is_surrogate.
  destruct (N.leb_spec 55296 (N_of_ascii a)); [lia | reflexivity].
Qed.

Lemma wf_text_incl (a b : str) :
  (forall c, In c a -> In c b) -> wf_text b = true -> wf_text a = true.
Proof.
  unfold wf_text. rewrite !forallb_forall. intros Hincl Hb c Hin. auto.
Qed.

Lemma lstrip_incl (s : str) (c : N) : In c (lstrip s) -> In c s.
Proof.
  induction s as [|a s IH]; simpl; [auto|].
  destruct (isspace a); [right; auto | auto].
Qed.

Lemma wf_text_strip (s : str) : wf_text s = true -> wf_text (strip s) = true.
Proof.
  apply wf_text_incl. intros c. unfold strip, rstrip.
  rewrite <- in_rev. intros Hin. apply lstrip_incl in Hin.
  rewrite <- in_rev in Hin. now apply lstrip_incl.
Qed.

Lemma wf_text_str_of_int (z : Z) : wf_text (str_of_int z) = true.
Proof. apply wf_text_lit. Qed.

Lemma wf_text_type_name (v : json) : wf_text (type_name v) = true.
Proof. destruct v; apply wf_text_lit. Qed.

Lemma exc_text_Exc (cls : exception_class) (text : str) : exc_text (Exc cls text) = text.
Proof. reflexivity. Qed.

Lemma get_sn_error `{PyRuntime} (json_data : json) (e : exception) :
  get_sn json_data = inl e ->
  e = Exc AttributeError
        (lit "'" ++ type_name json_data ++ lit "' object has no attribute 'get'").
Proof.
  destruct json_data as [| b | z | lexeme | chars | l | dct]; unfold get_sn;
    try congruence.
  destruct (dict_get dct (lit "sn")); discriminate.
Qed.

(** A failure outcome of a transport result made of decoded text is
    rendered as text that the results file accepts. *)
Lemma render_failure_wf `{PyRuntime} (process : run_result) :
  (forall doc, wf_text (decode_error_text doc) = true) ->
  wf_result process = true ->
  is_success (classify process) = false ->
  wf_text (render (classify process)) = true.
Proof.
  intros Hdec Hwf Hfail. destruct process as [returncode stdout stderr | [cls text]].
  - cbn [wf_result] in Hwf. apply andb_true_iff in Hwf as [Hout Herr].
    destruct (Z.eqb_spec returncode 0) as [->|Hrc].
    + destruct (nonempty (strip stdout)) eqn:Hne.
      * destruct (looks_like_json (strip stdout)) eqn:Hb.
        -- rewrite (classify_bracketed _ _ Hb) in *.
           destruct (json_loads (strip stdout)) as [d|].
           ++ destruct (get_sn d) as [e|v] eqn:Eg; [|discriminate].
              cbn [render]. rewrite wf_text_app, wf_text_lit.
              apply get_sn_error in Eg as ->. rewrite exc_text_Exc.
              now rewrite !wf_text_app, !wf_text_lit, wf_text_type_name.
           ++ cbn [render exc_text]. rewrite wf_text_app, wf_text_lit. apply Hdec.
        -- assert (Ec : classify (Completed 0 stdout stderr)
                        = MalformedResponse (strip stdout)).
           { unfold classify, try_query. cbn [Z.eqb negb]. now rewrite Hne, Hb. }
           rewrite Ec. cbn [render]. rewrite wf_text_app, wf_text_lit.
           now apply wf_text_strip.
      * assert (Ec : classify (Completed 0 stdout stderr) = EmptyResponse).
        { unfold classify, try_query. cbn [Z.eqb negb]. now rewrite Hne. }
        rewrite Ec. apply wf_text_lit.
    + rewrite (classify_nonzero_exit _ stdout stderr Hrc).
      cbn [render]. rewrite !wf_text_app, !wf_text_lit, wf_text_str_of_int.
      destruct (nonempty (strip stderr)); [now apply wf_text_strip | apply wf_text_lit].
  - cbn [wf_result exc_text] in Hwf.
    destruct cls; unfold classify; cbn [try_query render exc_text];
      rewrite ?wf_text_app, ?wf_text_lit; try reflexivity; exact Hwf.
Qed.

(** ** The loop *)

Lemma query_loop_step `{PyRuntime} (username password : str)
    (run : nat -> list str -> run_result)
    (server_address : str) (rest : list str) (st : LoopState) :
  let command := curl_command username password server_address in
  let result_to_write := render (classify (run (List.length (ran st)) command)) in
  wf_text server_address = true ->
  wf_text result_to_write = true ->
  query_loop username password run (server_address :: rest) st =
    query_loop username password run rest
      {| ran := ran st ++ [command];
         written := written st ++ [[server_address; result_to_write]] |}.
Proof.
  intros command result_to_write Ha Hr. simpl. unfold writerow. simpl.
  fold command. fold result_to_write. now rewrite Ha, Hr.
Qed.

(** The rows of the report after the loop: the rows written before it,
    then one row per server up to the first row that [writerow] refuses. *)
Lemma query_loop_written `{PyRuntime} (username password : str)
    (run : nat -> list str -> run_result) (server_list : list str) :
  forall st,
    written (query_loop username password run server_list st) =
    written st
    ++ take_encodable
         (expected_rows username password run (List.length (ran st)) server_list).
Proof.
  induction server_list as [|a rest IH]; intros st; simpl.
  - now rewrite app_nil_r.
  - unfold writerow. simpl.
    destruct (wf_text a && _) eqn:E.
    + rewrite IH. simpl. rewrite length_app, Nat.add_1_r, <- app_assoc. reflexivity.
    + simpl. now rewrite app_nil_r.
Qed.

Lemma take_encodable_all (rows : list (list str)) :
  forallb (forallb wf_text) rows = true -> take_encodable rows = rows.
Proof.
  induction rows as [|row rest IH]; simpl; [reflexivity|].
  intros Hall. apply andb_true_iff in Hall as [-> Hrest]. now rewrite IH.
Qed.

Lemma take_encodable_nth (rows : list (list str)) (j : nat) (row : list str) :
  nth_error (take_encodable rows) j = Some row -> nth_error rows j = Some row.
Proof.
  revert j. induction rows as [|r rest IH]; intros j; simpl; [auto|].
  destruct (forallb wf_text r); [|destruct j; discriminate].
  destruct j; simpl; auto.
Qed.

Lemma expected_rows_length `{PyRuntime} (username password : str)
    (run : nat -> list str -> run_result) (server_list : list str) :
  forall n, List.length (expected_rows username password run n server_list)
            = List.length server_list.
Proof. induction server_list; intros n; simpl; [reflexivity | now rewrite IHserver_list]. Qed.

Lemma expected_rows_nth `{PyRuntime} (username password : str)
    (run : nat -> list str -> run_result) (server_list : list str) :
  forall n j row,
    nth_error (expected_rows username password run n server_list) j = Some row ->
    exists server_address,
      nth_error server_list j = Some server_address
      /\ row = [server_address;
                render (classify (run (n + j)%nat
                          (curl_command username password server_address)))].
Proof.
  induction server_list as [|a rest IH]; intros n j row; simpl.
  - destruct j; discriminate.
  - destruct j; simpl.
    + intros [= <-]. exists a. now rewrite Nat.add_0_r.
    + intros Hn. apply IH in Hn as [t [Ht ->]]. exists t.
      now rewrite Nat.add_succ_r.
Qed.

Lemma expected_rows_first_column `{PyRuntime} (username password : str)
    (run : nat -> list str -> run_result) (server_list : list str) :
  forall n, map (fun row => hd [] row) (expected_rows username password run n server_list)
            = server_list.
Proof. induction server_list; intros n; simpl; [reflexivity | now rewrite IHserver_list]. Qed.

(** ** The claims on the classification *)

(** C7: with a non-zero exit status the outcome is [TransportFailure] with
    that status and the trimmed stderr, or the fixed text when the trimmed
    stderr is empty; the outcome is the same whatever stdout holds. *)
Theorem nonzero_exit_is_transport_failure `{PyRuntime}
    (returncode : Z) (stdout stderr : str) :
  returncode <> 0%Z ->
  classify (Completed returncode stdout stderr) =
    TransportFailure returncode
      (if nonempty (strip stderr) then strip stderr
       else lit "Unknown curl error or connection issue.")
  /\ forall stdout', classify (Completed returncode stdout' stderr) =
                     classify (Completed returncode stdout stderr).
Proof.
  intros Hrc. split; [now apply classify_nonzero_exit|].
  intros stdout'. now rewrite !classify_nonzero_exit.
Qed.

Lemma nonzero_exit_is_transport_failure_witness :
  classify (Completed 6 (lit "{}") (lit " Could not resolve host ")) =
    TransportFailure 6 (lit "Could not resolve host")
  /\ classify (Completed (-9) (lit "{}") (lit "  ")) =
    TransportFailure (-9) (lit "Unknown curl error or connection issue.").
Proof.
  split.
  - apply (nonzero_exit_is_transport_failure 6 (lit "{}")
             (lit " Could not resolve host ")). discriminate.
  - apply (nonzero_exit_is_transport_failure (-9) (lit "{}") (lit "  ")). discriminate.
Defined.

(** C8: exit status 0 and an empty trimmed stdout give [EmptyResponse],
    whatever stderr holds. *)
Theorem empty_stdout_is_empty_response `{PyRuntime} (stdout stderr : str) :
  strip stdout = [] ->
  classify (Completed 0 stdout stderr) = EmptyResponse.
Proof.
  intros He. unfold classify, try_query. simpl. now rewrite He.
Qed.

Lemma empty_stdout_is_empty_response_witness :
  classify (Completed 0 (lit "  " ++ [10; 9]) (lit "curl: (52) Empty reply from server"))
  = EmptyResponse.
Proof.
  apply (empty_stdout_is_empty_response (lit "  " ++ [10; 9])
           (lit "curl: (52) Empty reply from server")).
  reflexivity.
Defined.

(** C5, as the code has it: with exit status 0 and a non-empty trimmed
    stdout the outcome is [MalformedResponse] of the trimmed stdout exactly
    when the test of line 121 fails, that is unless the text starts with an
    opening brace or bracket and ends with a closing brace or bracket, of
    the same kind or not; when the test passes [json.loads] is called. *)
Theorem malformed_iff_bracket_test_fails `{PyRuntime} (stdout stderr : str) :
  strip stdout <> [] ->
  (forall body, classify (Completed 0 stdout stderr) = MalformedResponse body <->
                looks_like_json (strip stdout) = false /\ body = strip stdout)
  /\ looks_like_json (strip stdout) =
       (startswith2 (strip stdout) 123 91 && endswith2 (strip stdout) 125 93).
Proof.
  intros Hne. split; [|reflexivity]. intros body.
  destruct (looks_like_json (strip stdout)) eqn:Hb.
  - rewrite (classify_bracketed _ _ Hb).
    split; [|intros [E _]; discriminate].
    destruct (json_loads (strip stdout)) as [d|]; [|discriminate].
    destruct (get_sn d); discriminate.
  - unfold classify, try_query. simpl.
    apply nonempty_true in Hne. rewrite Hne, Hb.
    split; [intros E; injection E as <-; now split | intros [_ ->]; reflexivity].
Qed.

Lemma malformed_iff_bracket_test_fails_witness :
  classify (Completed 0 (lit " {broken ") []) = MalformedResponse (lit "{broken").
Proof.
  apply (malformed_iff_bracket_test_fails (lit " {broken ") []).
  - discriminate.
  - split; reflexivity.
Defined.

(** C5 as stated fails: a body that opens with a brace and closes with a
    bracket passes the test of line 121, [json.loads] is called on it, and the
    outcome is not [MalformedResponse]. *)
Lemma mixed_brackets_not_malformed :
  looks_like_json (lit "{]") = true
  /\ classify (Completed 0 (lit "{]") []) <> MalformedResponse (lit "{]")
  /\ classify (Completed 0 (lit "{]") []) =
       ScriptException (Exc JSONDecodeError (decode_error_text (lit "{]"))).
Proof. repeat split. discriminate. Qed.

(** C3, as the code has it: with exit status 0, a trimmed stdout that passes
    the test of line 121 and that [json.loads] rejects, the [JSONDecodeError]
    is caught by the handler of line 141: the outcome is [ScriptException]
    with the text of the error, rendered after the fixed prefix, and the
    loop goes on with the remaining servers after writing that row. *)
Theorem invalid_json_is_script_exception `{PyRuntime} (stdout stderr : str) :
  looks_like_json (strip stdout) = true ->
  json_loads (strip stdout) = None ->
  classify (Completed 0 stdout stderr) =
    ScriptException (Exc JSONDecodeError (decode_error_text (strip stdout)))
  /\ render (classify (Completed 0 stdout stderr)) =
       lit "SCRIPT EXCEPTION: An error occurred during curl execution: "
       ++ decode_error_text (strip stdout)
  /\ forall username password run server_address rest st,
       wf_text server_address = true ->
       wf_text (decode_error_text (strip stdout)) = true ->
       run (List.length (ran st)) (curl_command username password server_address)
         = Completed 0 stdout stderr ->
       query_loop username password run (server_address :: rest) st =
         query_loop username password run rest
           {| ran := ran st ++ [curl_command username password server_address];
              written := written st
                ++ [[server_address;
                     lit "SCRIPT EXCEPTION: An error occurred during curl execution: "
                     ++ decode_error_text (strip stdout)]] |}.
Proof.
  intros Hb Hj.
  assert (Hc : classify (Completed 0 stdout stderr) =
    ScriptException (Exc JSONDecodeError (decode_error_text (strip stdout)))).
  { now rewrite (classify_bracketed _ _ Hb), Hj. }
  split; [exact Hc|]. split; [now rewrite Hc|].
  intros username password run server_address rest st Ha Hd Hrun.
  pose proof (query_loop_step username password run server_address rest st) as Hstep.
  cbv zeta in Hstep. rewrite Hrun, Hc in Hstep. apply (Hstep Ha).
  unfold render. rewrite exc_text_Exc, wf_text_app, wf_text_lit. exact Hd.
Qed.

Lemma invalid_json_is_script_exception_witness :
  classify (Completed 0 (lit "{broken}") []) =
    ScriptException (Exc JSONDecodeError (decode_error_text (lit "{broken}"))).
Proof.
  apply (invalid_json_is_script_exception (lit "{broken}") []); reflexivity.
Defined.

(** C3 as stated fails: the body passes the test of line 121, is not JSON,
    and the outcome is not [MalformedResponse]. *)
Lemma invalid_json_not_malformed :
  looks_like_json (lit "{broken}") = true
  /\ json_loads (lit "{broken}") = None
  /\ classify (Completed 0 (lit "{broken}") []) <> MalformedResponse (lit "{broken}").
Proof. repeat split. discriminate. Qed.

(** C6: the three bodies of the specification, and every body that
    [json.loads] reads as a dict: the field [sn] gives [Success] of its
    value as a string, its absence gives [Success] of the sentinel. *)
Theorem sn_extraction_examples `{PyRuntime} :
  classify (Completed 0
    (lit "{" ++ quoted "sn" ++ lit ": " ++ quoted "ABC123" ++ lit ", "
     ++ quoted "other" ++ lit ": 1}") []) = Success (lit "ABC123")
  /\ classify (Completed 0 (lit "{" ++ quoted "other" ++ lit ": 1}") [])
     = Success (lit "SN_NOT_FOUND")
  /\ classify (Completed 0 (lit "{}") []) = Success (lit "SN_NOT_FOUND")
  /\ forall stdout stderr d,
       json_loads (strip stdout) = Some (JDict d) ->
       classify (Completed 0 stdout stderr) =
         Success (match dict_get d (lit "sn") with
                  | Some v => py_str v
                  | None => lit "SN_NOT_FOUND"
                  end).
Proof.
  repeat split.
  intros stdout stderr d Hj.
  rewrite (classify_bracketed _ _ (loaded_container_looks_like_json _ _ Hj eq_refl)), Hj.
  unfold get_sn. now destruct (dict_get d (lit "sn")).
Qed.

Lemma sn_extraction_examples_witness :
  classify (Completed 0 (lit " {" ++ quoted "other" ++ lit " : 1 } " ++ [10]) [])
  = Success (lit "SN_NOT_FOUND").
Proof.
  apply (proj2 (proj2 (proj2 sn_extraction_examples))
           (lit " {" ++ quoted "other" ++ lit " : 1 } " ++ [10]) []
           [(lit "other", JInt 1)]).
  reflexivity.
Defined.

(** ** The report *)

(** When every row can be encoded, the report is the header and one row
    per server, in the order of the list, and every server was queried. *)
Lemma report_rows_when_encodable `{PyRuntime} (username password : str)
    (run : nat -> list str -> run_result) (server_list : list str) (st : LoopState) :
  forallb (forallb wf_text)
    (expected_rows username password run (List.length (ran st)) server_list) = true ->
  let rows := expected_rows username password run (List.length (ran st)) server_list in
  written (query_loop username password run server_list st) = written st ++ rows
  /\ List.length rows = List.length server_list
  /\ map (fun row => hd [] row) rows = server_list.
Proof.
  intros Hall rows. split; [|split].
  - rewrite query_loop_written. fold rows. now rewrite take_encodable_all.
  - apply expected_rows_length.
  - apply expected_rows_first_column.
Qed.

(** C1 fails on this input: the first server answers with a serial number
    that is a lone surrogate, [writerow] raises on its row outside the
    [try] block, and the report of two servers has no data row; the second
    server is never queried. *)
Theorem surrogate_serial_stops_the_report `{PyRuntime} :
  classify (Completed 0 (sn_body "\ud800") []) = Success [55296]
  /\ run_curl_requests surrogate_env =
     {| queries := [curl_command (lit "admin") (lit "secret") (lit "10.0.0.1")];
        results_file := Rewritten [header] |}.
Proof. split; reflexivity. Qed.

(** C2: a failure outcome for one server, on a transport result made of
    decoded text, does not end the loop: its row is written and the loop
    goes on with the remaining servers; and every data row of the report
    is made of its own server and of the result of that server's own call
    of [subprocess.run]. *)
Theorem failure_outcome_does_not_stop_the_loop `{PyRuntime}
    (username password : str) (run : nat -> list str -> run_result)
    (server_address : str) (rest : list str) (st : LoopState) :
  let command := curl_command username password server_address in
  let process := run (List.length (ran st)) command in
  (forall doc, wf_text (decode_error_text doc) = true) ->
  wf_text server_address = true ->
  wf_result process = true ->
  is_success (classify process) = false ->
  query_loop username password run (server_address :: rest) st =
    query_loop username password run rest
      {| ran := ran st ++ [command];
         written := written st ++ [[server_address; render (classify process)]] |}
  /\ forall server_list st0 j row,
       nth_error (written (query_loop username password run server_list st0))
                 (List.length (written st0) + j) = Some row ->
       exists target,
         nth_error server_list j = Some target
         /\ row = [target;
                   render (classify (run (List.length (ran st0) + j)%nat
                             (curl_command username password target)))].
Proof.
  intros command process Hdec Ha Hwf Hfail. split.
  - apply query_loop_step; [exact Ha|].
    now apply render_failure_wf.
  - intros server_list st0 j row Hn.
    rewrite query_loop_written in Hn.
    rewrite nth_error_app2 in Hn by lia.
    replace (List.length (written st0) + j - List.length (written st0))%nat
      with j in Hn by lia.
    apply take_encodable_nth in Hn. now apply expected_rows_nth in Hn.
Qed.

Lemma failure_outcome_does_not_stop_the_loop_witness :
  query_loop (lit "admin") (lit "secret") mixed_run
    [lit "bad-host"; lit "10.0.0.1"; lit "10.0.0.2"] start =
  query_loop (lit "admin") (lit "secret") mixed_run
    [lit "10.0.0.1"; lit "10.0.0.2"]
    {| ran := [curl_command (lit "admin") (lit "secret") (lit "bad-host")];
       written :=
         [header;
          [lit "bad-host";
           lit "CURL ERROR (Exit Code 6): curl: (6) Could not resolve host: bad-host"]] |}.
Proof.
  apply (failure_outcome_does_not_stop_the_loop (lit "admin") (lit "secret") mixed_run
           (lit "bad-host") [lit "10.0.0.1"; lit "10.0.0.2"] start);
    reflexivity.
Defined.

(** C10: with exit status 0 and a trimmed stdout that [json.loads] reads as
    a list, [get] raises [AttributeError], caught by the handler of line
    141: the outcome is [ScriptException], neither [Success] nor
    [MalformedResponse], its row is the generic message, and the loop goes
    on with the remaining servers after writing that one row. *)
Theorem json_array_is_script_exception `{PyRuntime}
    (stdout stderr : str) (items : list json) :
  json_loads (strip stdout) = Some (JList items) ->
  classify (Completed 0 stdout stderr) =
    ScriptException (Exc AttributeError (lit "'list' object has no attribute 'get'"))
  /\ render (classify (Completed 0 stdout stderr)) =
     lit "SCRIPT EXCEPTION: An error occurred during curl execution: 'list' object has no attribute 'get'"
  /\ forall username password run server_address rest st,
       wf_text server_address = true ->
       run (List.length (ran st)) (curl_command username password server_address)
         = Completed 0 stdout stderr ->
       query_loop username password run (server_address :: rest) st =
         query_loop username password run rest
           {| ran := ran st ++ [curl_command username password server_address];
              written := written st
                ++ [[server_address;
                     lit "SCRIPT EXCEPTION: An error occurred during curl execution: 'list' object has no attribute 'get'"]] |}.
Proof.
  intros Hj.
  assert (Hb : looks_like_json (strip stdout) = true)
    by exact (loaded_container_looks_like_json _ _ Hj eq_refl).
  assert (Hc : classify (Completed 0 stdout stderr) =
    ScriptException (Exc AttributeError (lit "'list' object has no attribute 'get'"))).
  { rewrite (classify_bracketed _ _ Hb), Hj. reflexivity. }
  split; [exact Hc|]. split; [now rewrite Hc|].
  intros username password run server_address rest st Ha Hrun.
  pose proof (query_loop_step username password run server_address rest st) as Hstep.
  cbv zeta in Hstep. rewrite Hrun, Hc in Hstep. exact (Hstep Ha eq_refl).
Qed.

Lemma json_array_is_script_exception_witness :
  classify (Completed 0 (lit "[1, 2]" ++ [10]) []) =
    ScriptException (Exc AttributeError (lit "'list' object has no attribute 'get'")).
Proof.
  apply (json_array_is_script_exception (lit "[1, 2]" ++ [10]) [] [JInt 1; JInt 2]).
  reflexivity.
Defined.

(** C9: when the password file has fewer than two lines, or a first or
    second line that is empty once trimmed, the run ends before the loop:
    no query is issued and the results file is not opened. *)
Theorem bad_credentials_abort_the_run `{PyRuntime} (env : Env) (lines : list str) :
  password_file env = Read lines ->
  (List.length lines < 2)%nat
  \/ strip (nth 0 lines []) = [] \/ strip (nth 1 lines []) = [] ->
  run_curl_requests env = {| queries := []; results_file := Untouched |}.
Proof.
  intros Hf Hbad. unfold run_curl_requests. rewrite Hf.
  assert (Hc : read_credentials (Read lines) = None).
  { unfold read_credentials.
    destruct lines as [|l0 [|l1 more]]; try reflexivity. simpl in Hbad.
    destruct Hbad as [Hlen | [H0 | H1]]; [lia | now rewrite H0 |].
    rewrite H1. simpl. now destruct (nonempty (strip l0)). }
  now rewrite Hc.
Qed.

Lemma bad_credentials_abort_the_run_witness :
  run_curl_requests
    {| password_file := Read [lit "your_secure_password_here"];
       list_file := Read [[lit "192.168.0.122"]; [lit "api.example.com"]];
       results_file_opens := true;
       subprocess_run := mixed_run |}
  = {| queries := []; results_file := Untouched |}.
Proof.
  apply (bad_credentials_abort_the_run _ [lit "your_secure_password_here"]).
  - reflexivity.
  - left. simpl. lia.
Defined.

(** C4, as the code has it: when no server address is left after the blank
    entries are dropped, the run ends at line 55: no query is issued and the
    results file is not opened, so no report and no header row is written. *)
Theorem empty_server_list_aborts_the_run `{PyRuntime} (env : Env)
    (rows : list (list str)) :
  list_file env = Read rows ->
  collect_servers rows = [] ->
  run_curl_requests env = {| queries := []; results_file := Untouched |}.
Proof.
  intros Hf Hs. unfold run_curl_requests.
  destruct (read_credentials (password_file env)) as [[username password]|];
    [|reflexivity].
  unfold read_server_list. now rewrite Hf, Hs.
Qed.

Lemma empty_server_list_aborts_the_run_witness :
  run_curl_requests
    {| password_file := Read [lit "admin" ++ [10]; lit "secret" ++ [10]];
       list_file := Read [[lit "  "]; []; [[]; lit "10.0.0.1"]];
       results_file_opens := true;
       subprocess_run := mixed_run |}
  = {| queries := []; results_file := Untouched |}.
Proof.
  apply (empty_server_list_aborts_the_run _ [[lit "  "]; []; [[]; lit "10.0.0.1"]]);
    reflexivity.
Defined.

(** C4 as stated fails: with valid credentials and a list file without any
    row, the results file is not rewritten with the header row. *)
Lemma empty_server_list_writes_no_header :
  results_file
    (run_curl_requests
       {| password_file := Read [lit "admin" ++ [10]; lit "secret" ++ [10]];
          list_file := Read [];
          results_file_opens := true;
          subprocess_run := mixed_run |})
  <> Rewritten [header].
Proof. discriminate. Qed.

(** * Further properties of the code *)

(** ** Trimming *)

Lemma lstrip_fixed (s : str) :
  (forall c t, s = c :: t -> isspace c = false) -> lstrip s = s.
Proof.
  destruct s as [|c t]; [reflexivity|]. intros Hh. simpl.
  now rewrite (Hh c t eq_refl).
Qed.

Lemma strip_idempotent (s : str) : strip (strip s) = strip s.
Proof.
  assert (Hl : lstrip (strip s) = strip s).
  { apply lstrip_fixed. intros c t E. exact (strip_first _ _ _ E). }
  unfold strip at 1. rewrite Hl. unfold rstrip.
  rewrite lstrip_fixed; [apply rev_involutive|].
  intros c t E. apply (strip_last s (rev t) c).
  rewrite <- (rev_involutive (strip s)), E. reflexivity.
Qed.

(** ** The server list (lines 46 to 55) *)

Lemma collect_servers_filter (rows : list (list str)) :
  collect_servers rows = filter nonempty (map (fun row => strip (hd [] row)) rows).
Proof.
  induction rows as [|row rest IH]; simpl; [reflexivity|].
  destruct row as [|first others]; simpl.
  - exact IH.
  - destruct (nonempty (strip first)); now rewrite IH.
Qed.

(** X1: every address of the server list is the trimmed first field of a
    row, is not empty and has no white space at either end; the addresses
    come in the order of the rows, duplicates included, and rows that are
    empty or whose first field is blank leave nothing. *)
Theorem server_list_is_trimmed_first_column (rows : list (list str)) :
  collect_servers rows = filter nonempty (map (fun row => strip (hd [] row)) rows)
  /\ Forall (fun a => a <> [] /\ strip a = a) (collect_servers rows)
  /\ forall more, collect_servers (rows ++ more)
                  = collect_servers rows ++ collect_servers more.
Proof.
  split; [apply collect_servers_filter|]. split.
  - rewrite collect_servers_filter. apply Forall_forall. intros a Hin.
    apply filter_In in Hin as [Hin Hne]. apply in_map_iff in Hin as [row [<- _]].
    split; [now apply nonempty_true | apply strip_idempotent].
  - intros more. rewrite !collect_servers_filter, map_app. apply filter_app.
Qed.

(** ** The credentials (lines 19 to 43) *)

(** X2: the credentials are read exactly when the password file has at
    least two lines whose first two are not blank; they are these two lines
    trimmed, and the lines after the second play no part. *)
Theorem credentials_are_first_two_lines (f : file_read (list str)) (username password : str) :
  read_credentials f = Some (username, password) <->
  exists l0 l1 more,
    f = Read (l0 :: l1 :: more)
    /\ username = strip l0 /\ password = strip l1
    /\ username <> [] /\ password <> [].
Proof.
  split.
  - destruct f as [lines| |]; simpl; try discriminate.
    destruct lines as [|l0 [|l1 more]]; try discriminate.
    destruct (nonempty (strip l0)) eqn:E0; simpl; [|discriminate].
    destruct (nonempty (strip l1)) eqn:E1; simpl; [|discriminate].
    intros [= <- <-]. exists l0, l1, more.
    repeat split; now apply nonempty_true.
  - intros [l0 [l1 [more [-> [-> [-> [H0 H1]]]]]]]. simpl.
    apply nonempty_true in H0, H1. now rewrite H0, H1.
Qed.

(** ** The command (lines 76 to 90) *)

Lemma colon_split (u p u' p' : str) :
  ~ In 58 u -> ~ In 58 u' ->
  u ++ 58 :: p = u' ++ 58 :: p' -> u = u' /\ p = p'.
Proof.
  revert u'. induction u as [|c u IH]; intros [|c' u'] Hu Hu'; simpl.
  - intros [= ->]. now split.
  - intros [= <- _]. exfalso. apply Hu'. now left.
  - intros [= -> _]. exfalso. apply Hu. now left.
  - intros [= -> E]. apply IH in E as [-> ->]; [now split | |].
    + intros Hin. apply Hu. now right.
    + intros Hin. apply Hu'. now right.
Qed.

(** X3: two equal commands have the same server address, and the same
    credentials when no user name holds a colon; a colon in the user name
    makes two different credentials give the same command. *)
Theorem command_determines_its_inputs (u p a u' p' a' : str) :
  (curl_command u p a = curl_command u' p' a' ->
   a = a' /\ (~ In 58 u -> ~ In 58 u' -> u = u' /\ p = p'))
  /\ forall q, curl_command (u ++ lit ":" ++ p) q a = curl_command u (p ++ lit ":" ++ q) a.
Proof.
  split.
  - unfold curl_command. intros E. injection E as Ecred Eurl. split.
    + now apply app_inv_tail in Eurl.
    + intros Hu Hu'. now apply colon_split.
  - intros q. unfold curl_command. now rewrite <- !app_assoc.
Qed.

Lemma command_determines_its_inputs_witness :
  lit "10.0.0.1" = lit "10.0.0.1"
  /\ (~ In 58 (lit "admin") -> ~ In 58 (lit "admin") ->
      lit "admin" = lit "admin" /\ lit "secret" = lit "secret").
Proof.
  apply (proj1 (command_determines_its_inputs (lit "admin") (lit "secret") (lit "10.0.0.1")
                  (lit "admin") (lit "secret") (lit "10.0.0.1"))).
  reflexivity.
Defined.

(** ** The outcomes and their rows *)

(** X4: the rows of two outcomes that are not [Success] are different
    whenever the outcomes are of different kinds: the kind of a failure can
    be read off its row. *)
Theorem failure_rows_tell_the_kind `{PyRuntime} (o1 o2 : outcome) :
  is_success o1 = false -> is_success o2 = false ->
  render o1 = render o2 -> kind_of o1 = kind_of o2.
Proof.
  destruct o1, o2; simpl; intros H1 H2 E; try discriminate; reflexivity.
Qed.

Lemma failure_rows_tell_the_kind_witness :
  kind_of (MalformedResponse (lit "x")) = kind_of (MalformedResponse (lit "x")).
Proof.
  apply (failure_rows_tell_the_kind (MalformedResponse (lit "x"))
           (MalformedResponse (lit "x"))); reflexivity.
Defined.

Lemma scan_once_scalar_head (fuel : nat) (c : N) (t r : str) (v : json) :
  Decoder.scan_once fuel (c :: t) = Some (v, r) ->
  is_scalar v = true -> c <> 123 /\ c <> 91.
Proof.
  destruct fuel as [|fuel]; [discriminate|]. simpl.
  destruct (N.eqb_spec c 34) as [->|_]; [intros _ _; split; discriminate|].
  destruct (N.eqb_spec c 123) as [->|H123].
  { destruct (Decoder.skip_ws t) as [|c1 r1]; [discriminate|].
    destruct (c1 =? 125); [intros [= <- _]; discriminate|].
    destruct (c1 =? 34); [|discriminate].
    intros Ho. apply (proj1 (proj2 (DecoderFacts.scan_once_accepts _))) in Ho
      as [[d ->] _]. discriminate. }
  destruct (N.eqb_spec c 91) as [->|H91].
  { destruct (Decoder.skip_ws t) as [|c1 r1]; [discriminate|].
    destruct (c1 =? 93); [intros [= <- _]; discriminate|].
    intros Ha. apply (proj2 (proj2 (DecoderFacts.scan_once_accepts _))) in Ha
      as [[l ->] _]. discriminate. }
  intros _ _. now split.
Qed.

(** X5: among the bodies that [json.loads] accepts, with exit status 0,
    the ones reported as [MalformedResponse] are exactly the ones whose
    value is neither a dict nor a list: a body that is a JSON string,
    number or literal is an unexpected response, a JSON object or array
    never is. *)
Theorem valid_json_is_malformed_iff_scalar `{PyRuntime} (stdout stderr : str) (v : json) :
  json_loads (strip stdout) = Some v ->
  (classify (Completed 0 stdout stderr) = MalformedResponse (strip stdout)
   <-> is_scalar v = true).
Proof.
  intros Hj. destruct (is_scalar v) eqn:Hs.
  - split; [reflexivity | intros _].
    pose proof (json_loads_decode _ _ Hj) as Hd. unfold Decoder.decode in Hd.
    destruct (strip stdout) as [|c t] eqn:Eb; [discriminate|].
    assert (Hskip : Decoder.skip_ws (c :: t) = c :: t).
    { simpl. destruct (Decoder.is_ws c) eqn:Ec; [|reflexivity].
      apply is_ws_isspace in Ec. now rewrite (strip_first _ _ _ Eb) in Ec. }
    rewrite Hskip in Hd.
    destruct (Decoder.scan_once _ (c :: t)) as [[v0 r]|] eqn:Es; [|discriminate].
    destruct (Decoder.skip_ws r); [|discriminate]. injection Hd as ->.
    destruct (scan_once_scalar_head _ _ _ _ _ Es Hs) as [H123 H91].
    unfold classify, try_query. cbn [Z.eqb negb]. rewrite Eb.
    cbn [nonempty]. unfold looks_like_json. cbn [startswith2].
    apply N.eqb_neq in H123, H91. now rewrite H123, H91.
  - split; [|discriminate]. intros Hc.
    rewrite (classify_bracketed _ _ (loaded_container_looks_like_json _ _ Hj Hs)), Hj in Hc.
    destruct (get_sn v); discriminate.
Qed.

Lemma valid_json_is_malformed_iff_scalar_witness :
  classify (Completed 0 (lit " 12.5 ") []) = MalformedResponse (lit "12.5")
  <-> is_scalar (JFloat (lit "12.5")) = true.
Proof.
  apply (valid_json_is_malformed_iff_scalar (lit " 12.5 ") [] (JFloat (lit "12.5"))).
  reflexivity.
Defined.

(** ** The loop (lines 74 to 146) *)

Lemma take_encodable_firstn (rows : list (list str)) :
  take_encodable rows = firstn (List.length (take_encodable rows)) rows.
Proof.
  induction rows as [|row rest IH]; simpl; [reflexivity|].
  destruct (forallb wf_text row); simpl; [now rewrite <- IH | reflexivity].
Qed.

Lemma take_encodable_length (rows : list (list str)) :
  (List.length (take_encodable rows) <= List.length rows)%nat.
Proof.
  induction rows as [|row rest IH]; simpl; [lia|].
  destruct (forallb wf_text row); simpl; lia.
Qed.

Lemma query_loop_ran `{PyRuntime} (username password : str)
    (run : nat -> list str -> run_result) (server_list : list str) :
  forall st,
    ran (query_loop username password run server_list st) =
    ran st
    ++ map (curl_command username password)
         (firstn (S (List.length
                       (take_encodable
                          (expected_rows username password run
                             (List.length (ran st)) server_list))))
                 server_list).
Proof.
  induction server_list as [|a rest IH]; intros st.
  - simpl. now rewrite app_nil_r.
  - cbn [query_loop expected_rows take_encodable]. unfold writerow.
    destruct (forallb wf_text _) eqn:E.
    + rewrite IH. cbn [ran]. rewrite length_app, Nat.add_1_r, <- app_assoc.
      reflexivity.
    + cbn [ran List.length firstn map]. now destruct rest.
Qed.

(** X6: the loop queries the servers in the order of the list, each one
    once and never again; the report gets the rows of the first n servers,
    in order, and the servers queried are the first n + 1 (all of them when
    n is their number): a server is queried only when the rows of all
    servers before it are written. *)
Theorem servers_are_queried_once_in_order `{PyRuntime} (username password : str)
    (run : nat -> list str -> run_result) (server_list : list str) (st : LoopState) :
  exists n,
    (n <= List.length server_list)%nat
    /\ written (query_loop username password run server_list st) =
       written st
       ++ firstn n (expected_rows username password run (List.length (ran st)) server_list)
    /\ ran (query_loop username password run server_list st) =
       ran st ++ map (curl_command username password) (firstn (S n) server_list).
Proof.
  exists (List.length (take_encodable
            (expected_rows username password run (List.length (ran st)) server_list))).
  split; [|split].
  - rewrite <- (expected_rows_length username password run server_list
                  (List.length (ran st))).
    apply take_encodable_length.
  - rewrite query_loop_written. f_equal. apply take_encodable_firstn.
  - apply query_loop_ran.
Qed.

Lemma expected_rows_tooling `{PyRuntime} (username password : str)
    (run : nat -> list str -> run_result) (server_list : list str) :
  (forall n command, exists text, run n command = Raised (Exc FileNotFoundError text)) ->
  forall n, expected_rows username password run n server_list
            = map (fun a => [a; curl_not_found]) server_list.
Proof.
  intros Hrun. induction server_list as [|a rest IH]; intros n; [reflexivity|].
  cbn [expected_rows map]. rewrite IH.
  destruct (Hrun n (curl_command username password a)) as [text ->]. reflexivity.
Qed.

Lemma wf_text_curl_not_found : wf_text curl_not_found = true.
Proof. apply wf_text_lit. Qed.

(** X7: when [subprocess.run] raises [FileNotFoundError] at every call (no
    curl on the machine), the loop still goes through the whole list: every
    server is tried and gets a row with the same fixed message. *)
Theorem missing_curl_fills_the_report `{PyRuntime} (username password : str)
    (run : nat -> list str -> run_result) (server_list : list str) (st : LoopState) :
  (forall n command, exists text, run n command = Raised (Exc FileNotFoundError text)) ->
  forallb wf_text server_list = true ->
  query_loop username password run server_list st =
  {| ran := ran st ++ map (curl_command username password) server_list;
     written := written st ++ map (fun a => [a; curl_not_found]) server_list |}.
Proof.
  intros Hrun Hwf.
  assert (Hall : forallb (forallb wf_text)
                   (map (fun a => [a; curl_not_found]) server_list) = true).
  { clear -Hwf. induction server_list as [|a rest IH]; [reflexivity|].
    simpl in Hwf. apply andb_true_iff in Hwf as [Ha Hrest].
    cbn [map forallb]. now rewrite Ha, wf_text_curl_not_found, IH. }
  assert (Hw := query_loop_written username password run server_list st).
  assert (Hr := query_loop_ran username password run server_list st).
  rewrite (expected_rows_tooling _ _ _ _ Hrun) in Hw, Hr.
  rewrite (take_encodable_all _ Hall) in Hw, Hr.
  rewrite length_map in Hr. rewrite firstn_all2 in Hr by lia.
  destruct (query_loop username password run server_list st) as [r w].
  simpl in Hw, Hr. now rewrite Hw, Hr.
Qed.

Lemma missing_curl_fills_the_report_witness :
  query_loop (lit "admin") (lit "secret")
    (fun _ _ => Raised (Exc FileNotFoundError (lit "[Errno 2] No such file or directory: 'curl'")))
    [lit "10.0.0.1"; lit "10.0.0.2"] start =
  {| ran := [curl_command (lit "admin") (lit "secret") (lit "10.0.0.1");
             curl_command (lit "admin") (lit "secret") (lit "10.0.0.2")];
     written := [header; [lit "10.0.0.1"; curl_not_found]; [lit "10.0.0.2"; curl_not_found]] |}.
Proof.
  apply (missing_curl_fills_the_report (lit "admin") (lit "secret")
           (fun _ _ => Raised (Exc FileNotFoundError
                                 (lit "[Errno 2] No such file or directory: 'curl'")))
           [lit "10.0.0.1"; lit "10.0.0.2"] start).
  - intros n command. eexists. reflexivity.
  - reflexivity.
Defined.

(** ** The run (lines 19 to 151) *)

(** X8: what a run leaves behind.  Either nothing: no query and the results
    file as it was; or the credentials and a server list that is not empty
    were read and the results file was opened: then the report starts with
    the header row, followed by the rows of the first n servers, and the
    servers queried are the first n + 1.  So no query is ever issued before
    the results file is opened, and the first server is always queried once
    it is. *)
Theorem run_leaves_nothing_or_a_report `{PyRuntime} (env : Env) :
  run_curl_requests env = {| queries := []; results_file := Untouched |}
  \/ exists username password server_list n,
       read_credentials (password_file env) = Some (username, password)
       /\ read_server_list (list_file env) = Some server_list
       /\ server_list <> []
       /\ results_file_opens env = true
       /\ (n <= List.length server_list)%nat
       /\ run_curl_requests env =
          {| queries := map (curl_command username password) (firstn (S n) server_list);
             results_file :=
               Rewritten (header :: firstn n (expected_rows username password
                                                (subprocess_run env) 0 server_list)) |}.
Proof.
  unfold run_curl_requests.
  destruct (read_credentials (password_file env)) as [[username password]|];
    [|now left].
  destruct (read_server_list (list_file env)) as [server_list|] eqn:Es; [|now left].
  destruct (results_file_opens env); [|now left].
  right.
  destruct (servers_are_queried_once_in_order username password (subprocess_run env)
              server_list {| ran := []; written := [header] |}) as [n [Hn [Hw Hr]]].
  exists username, password, server_list, n. repeat split; try assumption.
  - unfold read_server_list in Es. destruct (list_file env); try discriminate.
    destruct (collect_servers content); [discriminate|]. injection Es as <-. discriminate.
  - rewrite Hw, Hr. reflexivity.
Qed.

(** X9: with credentials, a server list and a results file that opens, and
    when every row can be encoded, every server is queried once, in order,
    and the report is the header row and one row per server, in order. *)
Theorem run_writes_one_row_per_server `{PyRuntime} (env : Env)
    (username password : str) (server_list : list str) :
  read_credentials (password_file env) = Some (username, password) ->
  read_server_list (list_file env) = Some server_list ->
  results_file_opens env = true ->
  forallb (forallb wf_text)
    (expected_rows username password (subprocess_run env) 0 server_list) = true ->
  run_curl_requests env =
    {| queries := map (curl_command username password) server_list;
       results_file :=
         Rewritten (header :: expected_rows username password
                                (subprocess_run env) 0 server_list) |}
  /\ List.length (expected_rows username password (subprocess_run env) 0 server_list)
     = List.length server_list
  /\ map (fun row => hd [] row)
       (expected_rows username password (subprocess_run env) 0 server_list)
     = server_list.
Proof.
  intros Hc Hs Ho Hall. split; [|split].
  - unfold run_curl_requests. rewrite Hc, Hs, Ho.
    rewrite query_loop_written, query_loop_ran. cbn [ran written List.length].
    rewrite (take_encodable_all _ Hall), expected_rows_length.
    rewrite firstn_all2 by lia. reflexivity.
  - apply expected_rows_length.
  - apply expected_rows_first_column.
Qed.

Lemma run_writes_one_row_per_server_witness :
  run_curl_requests scenario_env =
    {| queries := map (curl_command (lit "admin") (lit "secret"))
                    [lit "10.0.0.1"; lit "bad-host"];
       results_file :=
         Rewritten (header :: expected_rows (lit "admin") (lit "secret")
                                (subprocess_run scenario_env) 0
                                [lit "10.0.0.1"; lit "bad-host"]) |}.
Proof.
  apply (run_writes_one_row_per_server scenario_env (lit "admin") (lit "secret")
           [lit "10.0.0.1"; lit "bad-host"]); reflexivity.
Defined.

(** ** The script (lines 155 to 174) *)

Lemma write_text_same (fs : FileSystem) (name content : str) :
  write_text fs name content name = Some content.
Proof. unfold write_text. now rewrite str_eqb_refl. Qed.

Lemma write_text_other (fs : FileSystem) (name content other : str) :
  other <> name -> write_text fs name content other = fs other.
Proof.
  intros Hne. unfold write_text.
  destruct (str_eqb other name) eqn:E; [|reflexivity].
  apply str_eqb_eq in E. contradiction.
Qed.




(** X11: when the password file does not exist, the script writes the
    dummy one, which has a single line, and the run that follows reads it
    and ends at line 27: no query is issued and the results file is not
    opened, whatever the list file holds. *)
Theorem main_without_password_file `{PyRuntime} (fs : FileSystem) (opens : bool)
    (run : nat -> list str -> run_result) :
  path_exists fs (lit "password.txt") = false ->
  fst (main fs opens run) (lit "password.txt") = Some dummy_password
  /\ snd (main fs opens run) = {| queries := []; results_file := Untouched |}.
Proof.
  intros Hp. unfold main. cbn [fst snd].
  set (fs1 := if path_exists fs (lit "ip_list.csv") then fs
              else write_text fs (lit "ip_list.csv") dummy_ip_list).
  assert (E : path_exists fs1 (lit "password.txt") = false).
  { unfold fs1. destruct (path_exists fs (lit "ip_list.csv")); [exact Hp|].
    unfold path_exists in *. now rewrite write_text_other by discriminate. }
  rewrite E. split; [apply write_text_same|].
  unfold run_curl_requests, env_of_files, open_password_file. cbn [password_file].
  rewrite write_text_same. reflexivity.
Qed.

Lemma main_without_password_file_witness :
  fst (main empty_directory true mixed_run) (lit "password.txt") = Some dummy_password
  /\ snd (main empty_directory true mixed_run)
     = {| queries := []; results_file := Untouched |}.
Proof.
  apply (main_without_password_file empty_directory true mixed_run). reflexivity.
Defined.

Lemma dummy_ip_list_rows :
  Csv.reader_rows dummy_ip_list = Some (map (fun a => [a]) dummy_servers).
Proof. vm_compute. reflexivity. Qed.

(** X12: when the list file does not exist and the password file gives
    credentials, the script writes the dummy list and the run queries its
    three addresses, in order: the report starts with the header row,
    holds the rows of the first n of them, and the first n + 1 are queried. *)
Theorem main_without_list_file `{PyRuntime} (fs : FileSystem)
    (run : nat -> list str -> run_result) (text username password : str) :
  path_exists fs (lit "ip_list.csv") = false ->
  fs (lit "password.txt") = Some text ->
  read_credentials (Read (readlines text)) = Some (username, password) ->
  fst (main fs true run) (lit "ip_list.csv") = Some dummy_ip_list
  /\ exists n,
       (n <= 3)%nat
       /\ snd (main fs true run) =
          {| queries := map (curl_command username password) (firstn (S n) dummy_servers);
             results_file :=
               Rewritten (header :: firstn n (expected_rows username password run 0
                                                dummy_servers)) |}.
Proof.
  intros Hl Hp Hc. unfold main. cbn [fst snd]. rewrite Hl.
  assert (E : path_exists (write_text fs (lit "ip_list.csv") dummy_ip_list)
                (lit "password.txt") = true).
  { unfold path_exists. rewrite write_text_other by discriminate. now rewrite Hp. }
  rewrite E. split; [apply write_text_same|].
  destruct (servers_are_queried_once_in_order username password run dummy_servers
              {| ran := []; written := [header] |}) as [n [Hn [Hw Hr]]].
  exists n. split; [exact Hn|].
  unfold run_curl_requests, env_of_files, open_password_file, open_list_file.
  cbn [password_file list_file results_file_opens subprocess_run].
  rewrite write_text_other by discriminate. rewrite Hp, Hc.
  rewrite write_text_same, dummy_ip_list_rows.
  change (read_server_list (Read (map (fun a => [a]) dummy_servers)))
    with (Some dummy_servers).
  cbv iota beta. rewrite Hw, Hr. reflexivity.
Qed.

Lemma main_without_list_file_witness :
  fst (main (write_text empty_directory (lit "password.txt")
               (lit "admin" ++ [10] ++ lit "secret" ++ [10])) true mixed_run)
      (lit "ip_list.csv") = Some dummy_ip_list.
Proof.
  apply (main_without_list_file
           (write_text empty_directory (lit "password.txt")
              (lit "admin" ++ [10] ++ lit "secret" ++ [10]))
           mixed_run (lit "admin" ++ [10] ++ lit "secret" ++ [10])
           (lit "admin") (lit "secret")); reflexivity.
Defined.

(** ** Reading the lines of a file *)

Lemma translate_newlines_app (a b : str) :
  forallb (fun c => negb (c =? 13)) a = true ->
  translate_newlines (a ++ b) = a ++ translate_newlines b.
Proof.
  induction a as [|c a IH]; [reflexivity|]. cbn [forallb app].
  intros Ha. apply andb_true_iff in Ha as [Hc Ha].
  apply negb_true_iff in Hc. cbn [translate_newlines]. rewrite Hc.
  now rewrite IH.
Qed.

Lemma split_lines_app (a rest cur : str) :
  forallb (fun c => negb (c =? 10)) a = true ->
  split_lines (a ++ rest) cur = split_lines rest (cur ++ a).
Proof.
  revert cur. induction a as [|c a IH]; intros cur; cbn [forallb app].
  - intros _. now rewrite app_nil_r.
  - intros Ha. apply andb_true_iff in Ha as [Hc Ha].
    apply negb_true_iff in Hc. cbn [split_lines]. rewrite Hc.
    rewrite IH by exact Ha. now rewrite <- app_assoc.
Qed.

Lemma one_line_no_cr (line : str) :
  one_line line = true -> forallb (fun c => negb (c =? 13)) line = true.
Proof.
  unfold one_line. rewrite !forallb_forall. intros Hl c Hin.
  specialize (Hl c Hin). apply negb_true_iff, orb_false_iff in Hl as [_ Hl].
  now rewrite Hl.
Qed.

Lemma one_line_no_lf (line : str) :
  one_line line = true -> forallb (fun c => negb (c =? 10)) line = true.
Proof.
  unfold one_line. rewrite !forallb_forall. intros Hl c Hin.
  specialize (Hl c Hin). apply negb_true_iff, orb_false_iff in Hl as [Hl _].
  now rewrite Hl.
Qed.

(** The first line of a text that holds a line feed. *)
Lemma readlines_first_line (line rest : str) :
  one_line line = true ->
  readlines (line ++ 10 :: rest) = (line ++ [10]) :: readlines rest.
Proof.
  intros Hl. unfold readlines.
  rewrite (translate_newlines_app _ _ (one_line_no_cr _ Hl)).
  cbn [translate_newlines N.eqb Pos.eqb].
  rewrite (split_lines_app _ _ _ (one_line_no_lf _ Hl)).
  reflexivity.
Qed.

(** The only line of a text without line feed. *)
Lemma readlines_last_line (line : str) :
  one_line line = true ->
  readlines line = if nonempty line then [line] else [].
Proof.
  intros Hl. unfold readlines.
  rewrite <- (app_nil_r line) at 1.
  rewrite (translate_newlines_app _ _ (one_line_no_cr _ Hl)).
  cbn [translate_newlines].
  rewrite (split_lines_app _ _ _ (one_line_no_lf _ Hl)). reflexivity.
Qed.

Lemma readlines_text_of_lines (lines : list str) :
  forallb one_line lines = true ->
  readlines (text_of_lines lines) = map (fun line => line ++ [10]) lines.
Proof.
  induction lines as [|line rest IH]; [reflexivity|]. cbn [forallb].
  intros Hl. apply andb_true_iff in Hl as [Hline Hrest].
  cbn [text_of_lines flat_map map]. rewrite <- app_assoc.
  change ([10] ++ flat_map (fun l => l ++ [10]) rest) with (10 :: text_of_lines rest).
  rewrite (readlines_first_line _ _ Hline). now rewrite IH.
Qed.

(** ** Trimming a line with its line end *)

Lemma lstrip_app_space (s : str) (c : N) :
  isspace c = true ->
  lstrip (s ++ [c]) = match lstrip s with [] => [] | _ :: _ => lstrip s ++ [c] end.
Proof.
  intros Hc. induction s as [|a s IH]; simpl.
  - now rewrite Hc.
  - destruct (isspace a); [exact IH | reflexivity].
Qed.

Lemma rstrip_app_space (s : str) (c : N) : isspace c = true -> rstrip (s ++ [c]) = rstrip s.
Proof.
  intros Hc. unfold rstrip. rewrite rev_app_distr. simpl. now rewrite Hc.
Qed.

Lemma strip_app_space (s : str) (c : N) : isspace c = true -> strip (s ++ [c]) = strip s.
Proof.
  intros Hc. unfold strip. rewrite (lstrip_app_space _ _ Hc).
  destruct (lstrip s) as [|a t] eqn:E; [reflexivity|].
  now apply rstrip_app_space.
Qed.

(** X13: the credentials as the text of the password file gives them.  For
    a text made of a first line, a line feed and a second line, followed by
    nothing or by a line feed and anything, the user name and the password
    are the two lines trimmed: white space around them is lost, the rest of
    the file plays no part, and the run has no credentials exactly when one
    of the two is blank. *)
Theorem credentials_from_the_text (fs : FileSystem) (name l0 l1 rest : str) :
  one_line l0 = true -> one_line l1 = true ->
  rest = [] \/ (exists more, rest = 10 :: more) ->
  fs name = Some (l0 ++ 10 :: l1 ++ rest) ->
  read_credentials (open_password_file fs name) =
    if nonempty (strip l0) && nonempty (strip l1)
    then Some (strip l0, strip l1) else None.
Proof.
  intros H0 H1 Hrest Hf. unfold open_password_file. rewrite Hf.
  rewrite (readlines_first_line _ _ H0).
  assert (Hs0 : strip (l0 ++ [10]) = strip l0) by now apply strip_app_space.
  destruct Hrest as [-> | [more ->]].
  - rewrite app_nil_r, (readlines_last_line _ H1).
    destruct l1 as [|c t]; cbn [nonempty read_credentials].
    + now rewrite andb_false_r.
    + rewrite Hs0. destruct (nonempty (strip l0)); [|reflexivity].
      cbn [negb andb]. now destruct (nonempty (strip (c :: t))).
  - rewrite (readlines_first_line _ _ H1). cbn [read_credentials].
    rewrite Hs0, (strip_app_space l1 10 eq_refl).
    destruct (nonempty (strip l0)); [|reflexivity].
    cbn [negb andb]. now destruct (nonempty (strip l1)).
Qed.

Lemma credentials_from_the_text_witness :
  read_credentials
    (open_password_file
       (write_text empty_directory (lit "password.txt")
          (lit " admin " ++ 10 :: lit "s3cret" ++ 10 :: lit "a third line"))
       (lit "password.txt"))
  = Some (lit "admin", lit "s3cret").
Proof.
  apply (credentials_from_the_text
           (write_text empty_directory (lit "password.txt")
              (lit " admin " ++ 10 :: lit "s3cret" ++ 10 :: lit "a third line"))
           (lit "password.txt") (lit " admin ") (lit "s3cret")
           (10 :: lit "a third line")).
  - reflexivity.
  - reflexivity.
  - right. now exists (lit "a third line").
  - reflexivity.
Defined.

(** ** The reader on a list file without quotes *)

Module CsvFacts.
Import Csv.

Lemma plain_line_one_line (line : str) : plain_line line = true -> one_line line = true.
Proof.
  unfold plain_line, one_line. intros Hp. apply andb_true_iff in Hp as [Hp _].
  rewrite forallb_forall in *. intros c Hin. specialize (Hp c Hin).
  apply negb_true_iff in Hp. apply orb_false_iff in Hp as [Hp _].
  now rewrite Hp.
Qed.

(** The characters of a line without quote, then its line feed and its end,
    read in a field: the line is cut at its commas, and the field in
    progress, with the text before the first comma, is the next field of
    the record. *)
Lemma process_plain_line (line : str) :
  forall r,
    forallb (fun c => negb ((c =? 10) || (c =? 13) || (c =? 34))) line = true ->
    (N.of_nat (List.length (field r) + List.length line) <= field_limit) ->
    st r = START_FIELD \/ st r = IN_FIELD ->
    exists more,
      process_line (line ++ [10]) r =
        Some {| st := START_RECORD;
                fields := fields r ++ (field r ++ before_comma line) :: more;
                field := [] |}.
Proof.
  induction line as [|c t IH]; intros r Hp Hlen Hst.
  - exists []. rewrite app_nil_r. cbn [app process_line].
    destruct Hst as [E | E]; unfold parse_process_char; rewrite E; reflexivity.
  - cbn [forallb] in Hp. apply andb_true_iff in Hp as [Hc Hp].
    apply negb_true_iff in Hc. apply orb_false_iff in Hc as [Hc H34].
    assert (Hnl : is_newline c = false) by exact Hc.
    cbn [List.length] in Hlen. cbn [app process_line before_comma].
    destruct (c =? 44) eqn:E44.
    + assert (Hstep : parse_process_char r (Some c)
                      = Some (parse_save_field r START_FIELD)).
      { destruct Hst as [E | E]; unfold parse_process_char; rewrite E;
          now rewrite Hnl, ?H34, E44. }
      rewrite Hstep.
      destruct (IH (parse_save_field r START_FIELD) Hp) as [more Hm].
      * cbn [field parse_save_field List.length]. lia.
      * now left.
      * exists (before_comma t :: more). rewrite Hm.
        cbn [fields field parse_save_field]. rewrite app_nil_r, <- app_assoc.
        reflexivity.
    + assert (Hadd : parse_add_char r IN_FIELD c =
                     Some {| st := IN_FIELD; fields := fields r; field := field r ++ [c] |}).
      { unfold parse_add_char.
        destruct (N.leb_spec field_limit (N.of_nat (List.length (field r))));
          [lia | reflexivity]. }
      assert (Hstep : parse_process_char r (Some c) =
                      Some {| st := IN_FIELD; fields := fields r; field := field r ++ [c] |}).
      { destruct Hst as [E | E]; unfold parse_process_char; rewrite E;
          now rewrite Hnl, ?H34, E44. }
      rewrite Hstep.
      destruct (IH {| st := IN_FIELD; fields := fields r; field := field r ++ [c] |} Hp)
        as [more Hm].
      * cbn [field]. rewrite length_app. cbn [List.length]. lia.
      * now right.
      * exists more. rewrite Hm. cbn [fields field]. now rewrite <- app_assoc.
Qed.

(** A whole line read from the start of a record: the record it yields has
    the text before the first comma as its first field, and is empty for an
    empty line. *)
Lemma process_plain_line_record (line : str) :
  plain_line line = true ->
  exists r,
    process_line (line ++ [10]) parse_reset = Some r
    /\ st r = START_RECORD /\ field r = []
    /\ hd [] (fields r) = before_comma line.
Proof.
  intros Hp. apply andb_true_iff in Hp as [Hp Hlen]. apply N.leb_le in Hlen.
  destruct line as [|c t].
  - eexists. split; [reflexivity|]. now repeat split.
  - destruct (process_plain_line (c :: t) (set_state parse_reset START_FIELD) Hp)
      as [more Hm]; [exact Hlen | now left |].
    assert (Hc : is_newline c = false).
    { cbn [forallb] in Hp. apply andb_true_iff in Hp as [Hc _].
      apply negb_true_iff in Hc. now apply orb_false_iff in Hc as [Hc _]. }
    assert (Hsame : process_line ((c :: t) ++ [10]) parse_reset
                    = process_line ((c :: t) ++ [10]) (set_state parse_reset START_FIELD)).
    { cbn [app process_line]. unfold parse_process_char.
      cbn [st parse_reset set_state]. now rewrite Hc. }
    rewrite Hsame, Hm. eexists. split; [reflexivity|]. now repeat split.
Qed.

Lemma records_plain_lines (lines : list str) :
  forallb plain_line lines = true ->
  exists rows,
    records (map (fun line => line ++ [10]) lines) parse_reset = Some rows
    /\ map (fun row => hd [] row) rows = map before_comma lines.
Proof.
  induction lines as [|line rest IH]; cbn [forallb].
  - intros _. exists []. now split.
  - intros Hl. apply andb_true_iff in Hl as [Hline Hrest].
    destruct (IH Hrest) as [rows [Hrows Hmap]].
    destruct (process_plain_line_record line Hline) as [r [Hr [Hst [Hf Hhd]]]].
    exists (fields r :: rows). cbn [map records].
    rewrite Hr, Hst. cbn [state_eqb]. rewrite Hrows. split; [reflexivity|].
    now rewrite Hhd, Hmap.
Qed.

End CsvFacts.

(** X14: the server list as the text of the list file gives it.  For a
    text made of lines that each end with a line feed and hold no quote and
    no carriage return, the server list holds, for each line in order, the
    text before the first comma, trimmed, and nothing for a line where that
    text is blank; the run has no server list when nothing is left. *)
Theorem server_list_from_plain_text (fs : FileSystem) (name : str) (lines : list str) :
  forallb plain_line lines = true ->
  fs name = Some (text_of_lines lines) ->
  read_server_list (open_list_file fs name) =
    match filter nonempty (map (fun line => strip (before_comma line)) lines) with
    | [] => None
    | server_list => Some server_list
    end.
Proof.
  intros Hp Hf. unfold open_list_file, Csv.reader_rows. rewrite Hf.
  rewrite readlines_text_of_lines.
  - destruct (CsvFacts.records_plain_lines lines Hp) as [rows [-> Hmap]].
    unfold read_server_list. rewrite collect_servers_filter.
    rewrite <- (map_map (fun row => hd [] row) strip), Hmap, map_map. reflexivity.
  - clear -Hp. induction lines as [|line rest IH]; [reflexivity|].
    cbn [forallb] in *. apply andb_true_iff in Hp as [Hl Hr].
    now rewrite (CsvFacts.plain_line_one_line _ Hl), IH.
Qed.

Lemma server_list_from_plain_text_witness :
  read_server_list
    (open_list_file
       (write_text empty_directory (lit "ip_list.csv")
          (text_of_lines [lit " 10.0.0.1 ,rack 4"; []; lit "  "; lit "bad-host"]))
       (lit "ip_list.csv"))
  = Some [lit "10.0.0.1"; lit "bad-host"].
Proof.
  apply (server_list_from_plain_text
           (write_text empty_directory (lit "ip_list.csv")
              (text_of_lines [lit " 10.0.0.1 ,rack 4"; []; lit "  "; lit "bad-host"]))
           (lit "ip_list.csv")
           [lit " 10.0.0.1 ,rack 4"; []; lit "  "; lit "bad-host"]);
    reflexivity.
Defined.

(** X15: the outcome is [Success] exactly when the process completed with
    exit status 0 and its trimmed stdout is read by [json.loads] as a dict;
    the serial number is then the field [sn] as a string, or the sentinel. *)
Theorem success_iff_json_object `{PyRuntime} (process : run_result) (serial : str) :
  classify process = Success serial <->
  exists stdout stderr d,
    process = Completed 0 stdout stderr
    /\ json_loads (strip stdout) = Some (JDict d)
    /\ serial = match dict_get d (lit "sn") with
                | Some v => py_str v
                | None => lit "SN_NOT_FOUND"
                end.
Proof.
  split.
  - destruct process as [returncode stdout stderr | [cls text]].
    + destruct (Z.eqb_spec returncode 0) as [->|Hrc].
      * intros Hc. exists stdout, stderr.
        destruct (nonempty (strip stdout)) eqn:Hne.
        -- destruct (looks_like_json (strip stdout)) eqn:Hb.
           ++ rewrite (classify_bracketed _ _ Hb) in Hc.
              destruct (json_loads (strip stdout)) as [v|]; [|discriminate].
              destruct v as [| b | z | lexeme | chars | l | d]; try discriminate.
              exists d. repeat split. unfold get_sn in Hc.
              destruct (dict_get d (lit "sn")); now injection Hc as <-.
           ++ unfold classify, try_query in Hc. cbn [Z.eqb negb] in Hc.
              rewrite Hne, Hb in Hc. discriminate.
        -- unfold classify, try_query in Hc. cbn [Z.eqb negb] in Hc.
           rewrite Hne in Hc. discriminate.
      * rewrite (classify_nonzero_exit _ _ _ Hrc). discriminate.
    + unfold classify, try_query. destruct cls; discriminate.
  - intros [stdout [stderr [d [-> [Hj ->]]]]].
    rewrite (classify_bracketed _ _ (loaded_container_looks_like_json _ _ Hj eq_refl)), Hj.
    unfold get_sn. now destruct (dict_get d (lit "sn")).
Qed.

Lemma success_iff_json_object_witness :
  classify (Completed 0 (sn_body "SN9") []) = Success (lit "SN9").
Proof.
  apply (proj2 (success_iff_json_object (Completed 0 (sn_body "SN9") []) (lit "SN9"))).
  exists (sn_body "SN9"), [], [(lit "sn", JStr (lit "SN9"))].
  repeat split.
Defined.
